(** * EPROC TJMG scraper: a shallow embedding of [eproc_scraper.py]

    The scraper drives a browser through Selenium.  The embedding keeps the
    program text of [EProcScraper] (its loops, its [try]/[except] blocks, its
    local variables that survive loop iterations, its logging calls) and
    replaces the browser by a small model:

    - a page is a tree of elements ([elemento]); the functions below compute
      what [find_element(s)] answers on such a tree, in document order;
    - a [WebElement] is a reference to an element of the page that was current
      when it was found; once the driver navigates, using it raises
      [StaleElementReferenceException];
    - the portal itself (what a URL shows, what a search shows) is a parameter
      of the development, a deterministic state machine [Mundo]. *)

From stdpp Require Import gmap strings list fin_maps.

Set Warnings "-register-all".

Open Scope string_scope.
Open Scope list_scope.

(** ** The DOM *)

Inductive elemento : Type :=
  Elemento (tag : string) (ident : string) (texto : string)
           (alvo : option string) (fs : list elemento).

(** [element.tag_name] *)
Definition tag_name (e : elemento) : string :=
  match e with Elemento t _ _ _ _ => t end.

(** the [id] attribute (empty when the element has none) *)
Definition attr_id (e : elemento) : string :=
  match e with Elemento _ i _ _ _ => i end.

(** [element.text], the rendered text of the element *)
Definition text (e : elemento) : string :=
  match e with Elemento _ _ x _ _ => x end.

(** [element.get_attribute("href")], [None] when the attribute is missing *)
Definition href (e : elemento) : option string :=
  match e with Elemento _ _ _ h _ => h end.

Definition filhos (e : elemento) : list elemento :=
  match e with Elemento _ _ _ _ fs => fs end.

(** All proper descendants of an element, in document order. *)
Fixpoint descendentes (e : elemento) : list elemento :=
  match e with
  | Elemento _ _ _ _ fs =>
      (fix varre (l : list elemento) : list elemento :=
         match l with
         | [] => []
         | f :: r => f :: descendentes f ++ varre r
         end) fs
  end.

(** The nodes selected by [//*[@id="i"]/t] below [e]: the children with tag
    [t] of any element whose id is [i], in document order. *)
Fixpoint filhos_de_id (i t : string) (e : elemento) : list elemento :=
  match e with
  | Elemento _ ident _ _ fs =>
      (fix varre (l : list elemento) : list elemento :=
         match l with
         | [] => []
         | f :: r =>
             (if String.eqb ident i && String.eqb (tag_name f) t
              then [f] else [])
             ++ filhos_de_id i t f ++ varre r
         end) fs
  end.

(** The selectors the scraper uses. *)
Inductive seletor : Type :=
  | XPathId (i : string)                 (* By.XPATH, '//*[@id="i"]' *)
  | XPathFilhoDeId (i t : string)        (* By.XPATH, '//*[@id="i"]/t' *)
  | XPathDescendentes                    (* By.XPATH, './/*' *)
  | TagName (t : string).                (* By.TAG_NAME, 't' *)

Definition tem_tag (t : string) (e : elemento) : bool := String.eqb (tag_name e) t.
Definition tem_id (i : string) (e : elemento) : bool := String.eqb (attr_id e) i.

(** [driver.find_elements]: the search starts at the document. *)
Definition selecionar_documento (raiz : elemento) (s : seletor) : list elemento :=
  match s with
  | XPathId i => List.filter (tem_id i) (raiz :: descendentes raiz)
  | XPathFilhoDeId i t => filhos_de_id i t raiz
  | XPathDescendentes => raiz :: descendentes raiz
  | TagName t => List.filter (tem_tag t) (raiz :: descendentes raiz)
  end.

(** [element.find_elements]: relative selectors look below the element,
    absolute XPaths still look at the whole document. *)
Definition selecionar_elemento (raiz e : elemento) (s : seletor) : list elemento :=
  match s with
  | XPathId _ | XPathFilhoDeId _ _ => selecionar_documento raiz s
  | XPathDescendentes => descendentes e
  | TagName t => List.filter (tem_tag t) (descendentes e)
  end.

(** ** Exceptions, log, records *)

Inductive excecao : Type :=
  | NoSuchElementException
  | StaleElementReferenceException
  | TimeoutException
  | WebDriverException
  | UnboundLocalError.

(** [except NoSuchElementException] and [except TimeoutException] catch one
    class; [except Exception] and the bare [except] catch all of them. *)
Definition e_NoSuchElement (e : excecao) : bool :=
  match e with NoSuchElementException => true | _ => false end.
Definition e_Timeout (e : excecao) : bool :=
  match e with TimeoutException => true | _ => false end.
Definition e_Exception (e : excecao) : bool := true.

(** One constructor per [logging] call of the class, with the values the
    message is formatted from. *)
Inductive mensagem : Type :=
  | WarnTimeoutElemento (value : seletor)
  | InfoRealizandoBusca (nome : string)
  | ErroCampoNome
  | ErroBotaoPesquisa
  | InfoBuscaRealizada (nome : string)
  | ErroRealizarBusca (nome : string) (e : excecao)
  | InfoNenhumProcesso (nome : string)
  | WarnTabelaNomes (nome : string)
  | InfoLinhasEncontradas (n : nat)
  | InfoPulandoCabecario
  | WarnErroLinha (idx : nat) (e : excecao)
  | InfoEntrandoLink (i n : nat)
  | WarnTabelaProcessos (nome : string)
  | InfoExtraindoDiv (i n : nat)
  | InfoTotalExtraidos (n : nat) (nome : string)
  | ErroExtrairDados (e : excecao)
  | InfoIniciandoProcessamento (nome : string)
  | ErroFalhaBusca (nome : string)
  | InfoIniciandoNomes (total : nat)
  | InfoProcessando (idx total : nat) (nome : string)
  | ErroProcessar (nome : string) (e : excecao)
  | InfoConcluido (n : nat)
  | InfoResultadosSalvos (arquivo : string)
  | InfoTotalSalvos (n : nat).

(** [processo_info]: one case, field name to field value. *)
Abbreviation registro := (gmap string string).

(** [self.resultados]: query name to the list of its cases. *)
Abbreviation armazem := (gmap string (list registro)).

(** A [WebElement]: the element and the page generation it was found in. *)
Record WebElement : Type := MkWebElement {
  we_geracao : nat;
  we_elem : elemento
}.

(** Outcome of a statement: a value or a raised exception. *)
Inductive resultado (A : Type) : Type :=
  | Retorna (a : A)
  | Levanta (e : excecao).
Arguments Retorna {A} a.
Arguments Levanta {A} e.

(** ** Configuration *)

Definition EPROC_URL : string :=
  "https://eproc-consulta-publica-1g.tjmg.jus.br/eproc/externo_controlador.php?acao=processo_consulta_publica".

Definition NOMES_CONSULTA : list string :=
  [ "ADILSON DA SILVA"; "JOÃO DA SILVA MORAES"; "RICARDO DE JESUS";
    "SERGIO FIRMINO DA SILVA"; "HELENA FARIAS DE LIMA"; "PAULO SALIM MALUF";
    "PEDRO DE SÁ" ].

Definition OUTPUT_DIR : string := "resultados".

(** The page of a browser that has not navigated yet, or whose navigation
    failed. *)
Definition pagina_em_branco : elemento := Elemento "html" "" "" None [].

(** The document [salvar_resultados] hands to [json.dump]. *)
Record metadados : Type := MkMetadados {
  data_extracao : string;
  total_processos : nat;
  nomes_consultados : list string;
  url_fonte : string
}.

Record dados_saida : Type := MkDadosSaida {
  metadata : metadados;
  processos : armazem
}.

(** The dictionary [gerar_relatorio_resumido] returns. *)
Record relatorio : Type := MkRelatorio {
  relatorio_total_processos : nat;
  processos_por_nome : gmap string nat;
  data_geracao : string
}.

(** ** What the specification says, in its own words

    These definitions follow the specification, not the code; the theorems
    compare them with the loops of [extrair_dados_processos]. *)

(** The first descendant with a given tag. *)
Definition primeira (t : string) (e : elemento) : option elemento :=
  head (List.filter (tem_tag t) (descendentes e)).

(** The anchor of a row: the anchor of its inner cell.  A row without an
    inner cell, or whose cell has no anchor, has none. *)
Definition ancora_da_linha (linha : elemento) : option elemento :=
  match primeira "td" linha with
  | None => None
  | Some celula => primeira "a" celula
  end.

(** Results Locator, steps 3 to 5: the target of the anchor of every row
    whose anchor text is equal to the queried name, in row order. *)
Fixpoint links_por_igualdade (nome : string) (linhas : list elemento)
    : list (option string) :=
  match linhas with
  | [] => []
  | linha :: resto =>
      match ancora_da_linha linha with
      | Some a =>
          if String.eqb (text a) nome
          then href a :: links_por_igualdade nome resto
          else links_por_igualdade nome resto
      | None => links_por_igualdade nome resto
      end
  end.

(** The rows of a table, in document order. *)
Definition linhas_da_tabela (tabela : elemento) : list elemento :=
  List.filter (tem_tag "tr") (descendentes tabela).

(** The "no results" indicator: a [label] directly inside the results area. *)
Definition indicador_vazio (p : elemento) : Prop :=
  filhos_de_id "divInfraAreaTabela" "label" p <> [].

(** Field Extractor, step 3b: the role of a descendant. *)
Inductive papel : Type := Label | Value | Ignorado.

Definition classificar (e : elemento) : papel :=
  if String.eqb (tag_name e) "label" then Label
  else if String.eqb (tag_name e) "span" then Value
  else Ignorado.

(** One descendant seen: a label sets the pending name, a value sets the
    pending value, anything else is ignored. *)
Definition ver (pendente : string * string) (e : elemento) : string * string :=
  match classificar e with
  | Label => (text e, snd pendente)
  | Value => (fst pendente, text e)
  | Ignorado => pendente
  end.

(** The pair a block commits, from its descendants in document order. *)
Definition par_do_bloco (elements : list elemento) : string * string :=
  fold_left ver elements ("", "").

(** Field Extractor, steps 3 and 4: every block commits its pair, keyed by
    the field name. *)
Definition comprometer (processo_info : registro) (div : elemento) : registro :=
  let par := par_do_bloco (descendentes div) in
  <[fst par := snd par]> processo_info.

Definition registro_dos_blocos (divs : list elemento) : registro :=
  fold_left comprometer divs ∅.

(** The field blocks of a summary container. *)
Definition blocos (capa : elemento) : list elemento :=
  List.filter (tem_tag "div") (descendentes capa).

(** Total record count as the specification defines it: the sum of the
    lengths of all result sets. *)
Definition soma_dos_tamanhos (r : armazem) : nat :=
  map_fold (fun _ (l : list registro) n => length l + n) 0 r.

(** ** Pages and portals used as concrete inputs *)

Module Exemplos.

(** A portal that never changes: a table of pages by URL, a table of result
    pages by searched text. *)
Fixpoint procurar (k : string) (l : list (string * elemento)) : option elemento :=
  match l with
  | [] => None
  | (k', p) :: r => if String.eqb k k' then Some p else procurar k r
  end.

Definition navegar_fixo (sitio : list (string * elemento))
    (url : string) (w : unit) : option elemento * unit :=
  (procurar url sitio, w).

Definition submeter_fixo (buscas : list (string * elemento))
    (txt : string) (w : unit) : option elemento * unit :=
  (procurar txt buscas, w).

Definition html (fs : list elemento) : elemento := Elemento "html" "" "" None fs.

(** The query form. *)
Definition pagina_consulta : elemento :=
  html [ Elemento "input" "txtStrParte" "" None [];
         Elemento "button" "sbmNovo" "Consultar" None [] ].

(** A table row with one cell holding one anchor. *)
Definition linha_com (rotulo url : string) : elemento :=
  Elemento "tr" "" rotulo None
    [ Elemento "td" "" rotulo None [ Elemento "a" "" rotulo (Some url) [] ] ].

(** A header row: no inner cell. *)
Definition cabecalho : elemento :=
  Elemento "tr" "" "Nome" None [ Elemento "th" "" "Nome" None [] ].

Definition pagina_tabela (linhas : list elemento) : elemento :=
  html [ Elemento "div" "divInfraAreaTabela" "" None
           [ Elemento "table" "" "" None linhas ] ].

(** The page the portal shows when nothing was found. *)
Definition pagina_sem_resultados : elemento :=
  html [ Elemento "div" "divInfraAreaTabela" "" None
           [ Elemento "label" "" "Nenhum processo encontrado" None [] ] ].

(** A field block with one label and one value. *)
Definition campo_rotulado (chave valor : string) : elemento :=
  Elemento "div" "" "" None
    [ Elemento "label" "" chave None []; Elemento "span" "" valor None [] ].

Definition pagina_capa (divs : list elemento) : elemento :=
  html [ Elemento "fieldset" "fldAssuntos" "" None divs ].

(** A detail page without the summary container. *)
Definition pagina_sem_capa : elemento :=
  html [ Elemento "div" "conteudo" "" None [] ].

Definition capa_classe_assunto : elemento :=
  pagina_capa [ campo_rotulado "Classe" "Cível";
                campo_rotulado "Assunto" "Contrato" ].

(** A block whose label occurs twice, each time followed by a value. *)
Definition bloco_repetido : elemento :=
  Elemento "div" "" "" None
    [ Elemento "label" "" "Classe" None []; Elemento "span" "" "Cível" None [];
      Elemento "label" "" "Classe" None []; Elemento "span" "" "Criminal" None [] ].

(** A block without any label. *)
Definition bloco_sem_label : elemento :=
  Elemento "div" "" "" None [ Elemento "span" "" "solto" None [] ].

(** The results page of the specification's example. *)
Definition pagina_adilson : elemento :=
  pagina_tabela [ cabecalho;
                  linha_com "ADILSON DA SILVA" "L1";
                  linha_com "OUTRO NOME" "L2" ].

(** Three matching rows; the case behind the second link has no summary
    container. *)
Definition pagina_tres : elemento :=
  pagina_tabela [ linha_com "X" "L1"; linha_com "X" "L2"; linha_com "X" "L3" ].

(** The same table without its second row. *)
Definition pagina_duas : elemento :=
  pagina_tabela [ linha_com "X" "L1"; linha_com "X" "L3" ].

Definition sitio_tres : list (string * elemento) :=
  [ (EPROC_URL, pagina_consulta);
    ("L1", pagina_tabela [ linha_com "0001" "D1" ]);
    ("L2", pagina_tabela [ linha_com "0002" "D2" ]);
    ("L3", pagina_tabela [ linha_com "0003" "D3" ]);
    ("D1", pagina_capa [ campo_rotulado "Classe" "Um" ]);
    ("D2", pagina_sem_capa);
    ("D3", pagina_capa [ campo_rotulado "Classe" "Tres" ]) ].

Definition registro_um : registro := {[ "Classe" := "Um" ]}.
Definition registro_tres : registro := {[ "Classe" := "Tres" ]}.

(** A link page with a header and two cases: the last row leads to "D3". *)
Definition sitio_duas_linhas : list (string * elemento) :=
  [ (EPROC_URL, pagina_consulta);
    ("L", pagina_tabela [ cabecalho; linha_com "0001" "D1"; linha_com "0003" "D3" ]);
    ("V", pagina_sem_capa);
    ("D1", pagina_capa [ campo_rotulado "Classe" "Um" ]);
    ("D3", pagina_capa [ campo_rotulado "Classe" "Tres" ]) ].

(** A results page with neither the "no results" label nor a table. *)
Definition pagina_sem_tabela : elemento :=
  html [ Elemento "div" "divInfraAreaTabela" "" None [] ].

(** A query page without the search button. *)
Definition pagina_sem_botao : elemento :=
  html [ Elemento "input" "txtStrParte" "" None [] ].

End Exemplos.

(** ** The scraper *)

Section Scraper.

(** The portal: [navegar url] is what [driver.get(url)] shows ([None] when
    the browser reports an error), [submeter txt] what the portal shows once
    the search form is submitted with [txt] typed in the name field.  Both
    may depend on, and change, the state of the world. *)
Variable Mundo : Type.
Variable navegar : string -> Mundo -> option elemento * Mundo.
Variable submeter : string -> Mundo -> option elemento * Mundo.

(** The scraper object together with its browser and its log. *)
Record estado : Type := MkEstado {
  mundo : Mundo;
  geracao : nat;             (* bumped by every navigation *)
  pagina : elemento;         (* the current page of [self.driver] *)
  campo : string;            (* what is typed in the name field *)
  resultados : armazem;      (* [self.resultados] *)
  log : list mensagem        (* oldest first *)
}.

(** State and exception monad: a raised exception keeps the state reached. *)
Definition M (A : Type) : Type := estado -> resultado A * estado.

Definition retornar {A} (a : A) : M A := fun st => (Retorna a, st).

Definition levantar {A} (e : excecao) : M A := fun st => (Levanta e, st).

Definition ligar {A B} (m : M A) (f : A -> M B) : M B :=
  fun st =>
    match m st with
    | (Retorna a, st') => f a st'
    | (Levanta e, st') => (Levanta e, st')
    end.

(** [try: m except C as e: h e], where [classe] decides membership in [C]. *)
Definition tentar {A} (m : M A) (classe : excecao -> bool) (h : excecao -> M A) : M A :=
  fun st =>
    match m st with
    | (Retorna a, st') => (Retorna a, st')
    | (Levanta e, st') => if classe e then h e st' else (Levanta e, st')
    end.

Notation "x <- m ;; f" := (ligar m (fun x => f))
  (at level 100, m at next level, f at level 200, right associativity).

Definition logging (m : mensagem) : M unit :=
  fun st =>
    (Retorna tt,
     MkEstado (mundo st) (geracao st) (pagina st) (campo st) (resultados st)
              (log st ++ [m])).

(** [time.sleep]: the model has no clock. *)
Definition sleep (segundos : nat) : M unit := retornar tt.

(** *** Selenium *)

(** [self.driver.get(url)].  A missing URL (an anchor without [href]) is
    refused by the driver. *)
Definition driver_get (url : option string) : M unit :=
  fun st =>
    match url with
    | None => (Levanta WebDriverException, st)
    | Some u =>
        match navegar u (mundo st) with
        | (Some p, w) =>
            (Retorna tt,
             MkEstado w (S (geracao st)) p "" (resultados st) (log st))
        | (None, w) =>
            (Levanta WebDriverException,
             MkEstado w (S (geracao st)) pagina_em_branco "" (resultados st) (log st))
        end
    end.

Definition referencias (g : nat) (l : list elemento) : list WebElement :=
  map (MkWebElement g) l.

(** [self.driver.find_elements(by, value)] *)
Definition driver_find_elements (s : seletor) : M (list WebElement) :=
  fun st => (Retorna (referencias (geracao st) (selecionar_documento (pagina st) s)), st).

(** [self.driver.find_element(by, value)] *)
Definition driver_find_element (s : seletor) : M WebElement :=
  l <- driver_find_elements s ;;
  match l with
  | [] => levantar NoSuchElementException
  | e :: _ => retornar e
  end.

(** Every use of a [WebElement] first checks that its page is still the
    current one. *)
Definition vigente {A} (e : WebElement) (k : elemento -> M A) : M A :=
  fun st =>
    if Nat.eqb (we_geracao e) (geracao st) then k (we_elem e) st
    else (Levanta StaleElementReferenceException, st).

(** [e.find_elements(by, value)] *)
Definition find_elements (e : WebElement) (s : seletor) : M (list WebElement) :=
  vigente e (fun x st =>
    (Retorna (referencias (geracao st) (selecionar_elemento (pagina st) x s)), st)).

(** [e.find_element(by, value)] *)
Definition find_element (e : WebElement) (s : seletor) : M WebElement :=
  l <- find_elements e s ;;
  match l with
  | [] => levantar NoSuchElementException
  | x :: _ => retornar x
  end.

(** [e.text], [e.tag_name], [e.get_attribute("href")] *)
Definition we_text (e : WebElement) : M string :=
  vigente e (fun x => retornar (text x)).
Definition we_tag_name (e : WebElement) : M string :=
  vigente e (fun x => retornar (tag_name x)).
Definition get_attribute_href (e : WebElement) : M (option string) :=
  vigente e (fun x => retornar (href x)).

(** [e.clear()] and [e.send_keys(txt)] on the name field *)
Definition clear (e : WebElement) : M unit :=
  vigente e (fun _ st =>
    (Retorna tt,
     MkEstado (mundo st) (geracao st) (pagina st) "" (resultados st) (log st))).
Definition send_keys (e : WebElement) (txt : string) : M unit :=
  vigente e (fun _ st =>
    (Retorna tt,
     MkEstado (mundo st) (geracao st) (pagina st) (campo st +:+ txt)
              (resultados st) (log st))).

(** [e.click()] on the search button: the form is submitted with what the
    name field holds. *)
Definition click (e : WebElement) : M unit :=
  vigente e (fun _ st =>
    match submeter (campo st) (mundo st) with
    | (Some p, w) =>
        (Retorna tt, MkEstado w (S (geracao st)) p "" (resultados st) (log st))
    | (None, w) =>
        (Levanta WebDriverException,
         MkEstado w (S (geracao st)) pagina_em_branco "" (resultados st) (log st))
    end).

(** [WebDriverWait(driver, timeout).until(EC.presence_of_element_located(..))]:
    on a page that no longer changes, the wait ends at once when the element
    is there and times out when it is not. *)
Definition wait_until_presence (s : seletor) : M WebElement :=
  tentar (driver_find_element s) e_NoSuchElement (fun _ => levantar TimeoutException).

(** [_aguardar_elemento] *)
Definition _aguardar_elemento (s : seletor) : M (option WebElement) :=
  tentar
    (elemento <- wait_until_presence s ;;
     retornar (Some elemento))
    e_Timeout
    (fun _ =>
       _ <- logging (WarnTimeoutElemento s) ;;
       retornar None).

(** [realizar_busca] *)
Definition realizar_busca (nome : string) : M bool :=
  tentar
    (_ <- logging (InfoRealizandoBusca nome) ;;
     _ <- driver_get (Some EPROC_URL) ;;
     _ <- sleep 2 ;;
     campo_nome <- _aguardar_elemento (XPathId "txtStrParte") ;;
     match campo_nome with
     | None =>
         _ <- logging ErroCampoNome ;;
         retornar false
     | Some campo_nome =>
         _ <- clear campo_nome ;;
         _ <- send_keys campo_nome nome ;;
         _ <- sleep 1 ;;
         botao_pesquisar <- _aguardar_elemento (XPathId "sbmNovo") ;;
         match botao_pesquisar with
         | None =>
             _ <- logging ErroBotaoPesquisa ;;
             retornar false
         | Some botao_pesquisar =>
             _ <- click botao_pesquisar ;;
             _ <- sleep 3 ;;
             _ <- logging (InfoBuscaRealizada nome) ;;
             retornar true
         end
     end)
    e_Exception
    (fun e =>
       _ <- logging (ErroRealizarBusca nome e) ;;
       retornar false).

(** *** [extrair_dados_processos] *)

(** Lines 277-294, one turn of the loop over the rows of the results table.
    [links] and [celulas] are the local variables of the method; [celulas]
    keeps its value when a row has no cell, and keeps the new cell when the
    rest of the row fails. *)
Definition linha_da_busca (nome_consultado : string) (idx : nat) (linha : WebElement)
    (links : list (option string)) (celulas : option WebElement)
    : M (list (option string) * option WebElement) :=
  achada <- tentar
              (c <- find_element linha (TagName "td") ;;
               retornar (Some c))
              e_Exception
              (fun _ =>
                 _ <- logging InfoPulandoCabecario ;;
                 retornar None) ;;
  match achada with
  | None => retornar (links, celulas)
  | Some c =>
      tentar
        (nome <- find_element c (TagName "a") ;;
         t <- we_text nome ;;
         if negb (String.eqb t nome_consultado) then retornar (links, Some c)
         else
           h <- get_attribute_href nome ;;
           retornar (links ++ [h], Some c))
        e_Exception
        (fun e =>
           _ <- logging (WarnErroLinha idx e) ;;
           retornar (links, Some c))
  end.

(** [for idx, linha in enumerate(linhas, 1)], lines 277-294 *)
Fixpoint laco_linhas (nome_consultado : string) (linhas : list WebElement) (idx : nat)
    (links : list (option string)) (celulas : option WebElement)
    : M (list (option string) * option WebElement) :=
  match linhas with
  | [] => retornar (links, celulas)
  | linha :: resto =>
      r <- linha_da_busca nome_consultado idx linha links celulas ;;
      laco_linhas nome_consultado resto (S idx) (fst r) (snd r)
  end.

(** Lines 274-294: the rows of the results table and the links they give. *)
Definition localizar_links (nome_consultado : string) (tabela : WebElement)
    : M (list (option string) * option WebElement) :=
  linhas <- find_elements tabela (TagName "tr") ;;
  _ <- logging (InfoLinhasEncontradas (length linhas)) ;;
  laco_linhas nome_consultado linhas 1 [] None.

(** Lines 309-315: the loop that only refreshes [celulas]. *)
Fixpoint laco_celulas (linhas : list WebElement) (celulas : option WebElement)
    : M (option WebElement) :=
  match linhas with
  | [] => retornar celulas
  | linha :: resto =>
      c <- tentar
             (x <- find_element linha (TagName "td") ;;
              retornar (Some x))
             e_Exception
             (fun _ =>
                _ <- logging InfoPulandoCabecario ;;
                retornar celulas) ;;
      laco_celulas resto c
  end.

(** Lines 327-333: the scan of one block, [chave] and [valor] being the
    pending field name and field value. *)
Fixpoint laco_elements (elements : list WebElement) (chave valor : string)
    : M (string * string) :=
  match elements with
  | [] => retornar (chave, valor)
  | element :: resto =>
      t <- we_tag_name element ;;
      if String.eqb t "label" then
        x <- we_text element ;;
        laco_elements resto x valor
      else
        t' <- we_tag_name element ;;
        if String.eqb t' "span" then
          x <- we_text element ;;
          laco_elements resto chave x
        else laco_elements resto chave valor
  end.

(** Lines 323-334: one block, committed into [processo_info]. *)
Definition bloco (i n : nat) (div : WebElement) (processo_info : registro) : M registro :=
  _ <- logging (InfoExtraindoDiv i n) ;;
  elements <- find_elements div XPathDescendentes ;;
  par <- laco_elements elements "" "" ;;
  retornar (<[fst par := snd par]> processo_info).

(** [for i, div in enumerate(divs, 1)], lines 322-334 *)
Fixpoint laco_divs (divs : list WebElement) (i n : nat) (processo_info : registro)
    : M registro :=
  match divs with
  | [] => retornar processo_info
  | div :: resto =>
      info <- bloco i n div processo_info ;;
      laco_divs resto (S i) n info
  end.

(** Lines 320-334: the summary container of the page the driver is on. *)
Definition extrair_capa : M registro :=
  capa <- driver_find_element (XPathId "fldAssuntos") ;;
  divs <- find_elements capa (TagName "div") ;;
  laco_divs divs 1 (length divs) ∅.

(** Lines 297-336, one turn of the loop over the links.  [tabela] and
    [celulas] are the method's local variables as the turn finds them; the
    turn returns the record together with their new values. *)
Definition extrair_link (nome_consultado : string) (i n : nat) (link : option string)
    (tabela : WebElement) (celulas : option WebElement)
    : M (registro * WebElement * option WebElement) :=
  _ <- logging (InfoEntrandoLink i n) ;;
  _ <- driver_get link ;;
  _ <- sleep 2 ;;
  tabela <- tentar
              (driver_find_element (XPathFilhoDeId "divInfraAreaTabela" "table"))
              e_NoSuchElement
              (fun _ =>
                 _ <- logging (WarnTabelaProcessos nome_consultado) ;;
                 retornar tabela) ;;
  linhas <- find_elements tabela (TagName "tr") ;;
  celulas <- laco_celulas linhas celulas ;;
  match celulas with
  | None => levantar UnboundLocalError
  | Some c =>
      processo <- find_element c (TagName "a") ;;
      h <- get_attribute_href processo ;;
      _ <- driver_get h ;;
      _ <- sleep 2 ;;
      processo_info <- extrair_capa ;;
      retornar (processo_info, tabela, Some c)
  end.

(** [for i, link in enumerate(links, 1)], lines 296-336.  No turn has a
    handler of its own: the first exception leaves the loop, and the method's
    handler then sees [processos] as filled so far.  The loop returns that
    list and the exception that ended it, if any. *)
Fixpoint laco_links (nome_consultado : string) (links : list (option string)) (i n : nat)
    (tabela : WebElement) (celulas : option WebElement) (processos : list registro)
    : M (list registro * option excecao) :=
  match links with
  | [] => retornar (processos, None)
  | link :: resto =>
      fun st =>
        match extrair_link nome_consultado i n link tabela celulas st with
        | (Retorna (processo_info, tabela', celulas'), st') =>
            laco_links nome_consultado resto (S i) n tabela' celulas'
                       (processos ++ [processo_info]) st'
        | (Levanta e, st') => (Retorna (processos, Some e), st')
        end
  end.

(** [extrair_dados_processos] *)
Definition extrair_dados_processos (nome_consultado : string) : M (list registro) :=
  tentar
    (_ <- sleep 2 ;;
     vazio <- tentar
                (mensagem_vazia <- driver_find_element
                                     (XPathFilhoDeId "divInfraAreaTabela" "label") ;;
                 _ <- logging (InfoNenhumProcesso nome_consultado) ;;
                 retornar true)
                e_NoSuchElement
                (fun _ => retornar false) ;;
     if (vazio : bool) then retornar []
     else
       achada <- tentar
                   (t <- driver_find_element
                           (XPathFilhoDeId "divInfraAreaTabela" "table") ;;
                    retornar (Some t))
                   e_NoSuchElement
                   (fun _ =>
                      _ <- logging (WarnTabelaNomes nome_consultado) ;;
                      retornar None) ;;
       match achada with
       | None => retornar []
       | Some tabela =>
           lc <- localizar_links nome_consultado tabela ;;
           r <- laco_links nome_consultado (fst lc) 1 (length (fst lc))
                           tabela (snd lc) [] ;;
           match snd r with
           | None =>
               _ <- logging (InfoTotalExtraidos (length (fst r)) nome_consultado) ;;
               retornar (fst r)
           | Some e =>
               _ <- logging (ErroExtrairDados e) ;;
               retornar (fst r)
           end
       end)
    e_Exception
    (fun e =>
       _ <- logging (ErroExtrairDados e) ;;
       retornar []).

(** *** The orchestration *)

(** [self.resultados[nome] = processos] *)
Definition registrar (nome : string) (processos : list registro) : M unit :=
  fun st =>
    (Retorna tt,
     MkEstado (mundo st) (geracao st) (pagina st) (campo st)
              (<[nome := processos]> (resultados st)) (log st)).

(** [processar_nome] *)
Definition processar_nome (nome : string) : M (list registro) :=
  _ <- logging (InfoIniciandoProcessamento nome) ;;
  ok <- realizar_busca nome ;;
  if negb ok then
    _ <- logging (ErroFalhaBusca nome) ;;
    retornar []
  else
    processos <- extrair_dados_processos nome ;;
    _ <- registrar nome processos ;;
    retornar processos.

(** Lines 379-388, the loop of [processar_todos_nomes] over a body
    [processar]: the method runs it with [self.processar_nome]. *)
Fixpoint laco_nomes (processar : string -> M (list registro))
    (nomes : list string) (idx total_nomes : nat) : M unit :=
  match nomes with
  | [] => retornar tt
  | nome :: resto =>
      _ <- logging (InfoProcessando idx total_nomes nome) ;;
      _ <- tentar
             (_ <- processar nome ;;
              sleep 2)
             e_Exception
             (fun e => logging (ErroProcessar nome e)) ;;
      laco_nomes processar resto (S idx) total_nomes
  end.

Definition processar_todos_nomes_com (processar : string -> M (list registro))
    (nomes : list string) : M unit :=
  _ <- logging (InfoIniciandoNomes (length nomes)) ;;
  _ <- laco_nomes processar nomes 1 (length nomes) ;;
  fun st => logging (InfoConcluido (size (resultados st))) st.

(** [processar_todos_nomes] *)
Definition processar_todos_nomes (nomes : list string) : M unit :=
  processar_todos_nomes_com processar_nome nomes.

(** [salvar_resultados].  [carimbo] and [agora] are what the two calls of
    [datetime.now()] format to; the method returns the path, and the model
    returns with it the document written there. *)
Definition salvar_resultados (arquivo : option string) (carimbo agora : string)
    : M (string * dados_saida) :=
  let arquivo :=
    match arquivo with
    | None => OUTPUT_DIR +:+ "/" +:+ "processos_eproc_" +:+ carimbo +:+ ".json"
    | Some a => OUTPUT_DIR +:+ "/" +:+ a
    end in
  fun st =>
    let dados_saida :=
      MkDadosSaida
        (MkMetadados agora (size (resultados st)) NOMES_CONSULTA EPROC_URL)
        (resultados st) in
    (_ <- logging (InfoResultadosSalvos arquivo) ;;
     _ <- logging (InfoTotalSalvos (size (resultados st))) ;;
     retornar (arquivo, dados_saida)) st.

(** [gerar_relatorio_resumido], [agora] being [datetime.now().isoformat()] *)
Definition gerar_relatorio_resumido (agora : string) : M relatorio :=
  fun st => (Retorna (MkRelatorio (size (resultados st)) ∅ agora), st).

(** The state after some more log lines. *)
Definition com_log (st : estado) (l : list mensagem) : estado :=
  MkEstado (mundo st) (geracao st) (pagina st) (campo st) (resultados st)
           (log st ++ l).

(** A reference that belongs to the current page: the ones [find_element]
    and [find_elements] hand out, until the driver navigates. *)
Definition fresca (st : estado) (e : WebElement) : Prop :=
  we_geracao e = geracao st.

(** [__init__]: an empty store, a browser that has not navigated yet. *)
Definition iniciar (w : Mundo) : estado :=
  MkEstado w 0 pagina_em_branco "" ∅ [].

(** The scraper with its browser on page [p] and [r] in its store. *)
Definition estado_em (w : Mundo) (p : elemento) (r : armazem) : estado :=
  MkEstado w 0 p "" r [].

(** The log lines of the browser work, as opposed to the six lines of the
    orchestration ([processar_nome] and [processar_todos_nomes]). *)
Definition interna (m : mensagem) : bool :=
  match m with
  | InfoIniciandoProcessamento _ | ErroFalhaBusca _ | InfoIniciandoNomes _
  | InfoProcessando _ _ _ | ErroProcessar _ _ | InfoConcluido _ => false
  | _ => true
  end.

(** [st'] is [st] after some browser work: same store, a longer log. *)
Definition estende (st st' : estado) : Prop :=
  resultados st' = resultados st /\
  exists lg, log st' = log st ++ lg /\ Forall (fun m => interna m = true) lg.

(** A computation that only does browser work. *)
Definition quieto {A} (m : M A) : Prop := forall st, estende st (snd (m st)).

(** A computation that always returns. *)
Definition nunca_levanta {A} (m : M A) : Prop :=
  forall st, exists a, fst (m st) = Retorna a.

(** The names for which [processar_nome] was entered, and the names the loop
    of [processar_todos_nomes] announced, as the log shows them. *)
Definition nomes_iniciados (lg : list mensagem) : list string :=
  omap (fun m => match m with InfoIniciandoProcessamento n => Some n | _ => None end) lg.

Definition nomes_anunciados (lg : list mensagem) : list (nat * string) :=
  omap (fun m => match m with InfoProcessando i _ n => Some (i, n) | _ => None end) lg.

(** What the loop should announce: the names with their positions from 1. *)
Definition enumerar (idx : nat) (nomes : list string) : list (nat * string) :=
  zip (seq idx (length nomes)) nomes.

(** One turn of the loop, whatever the body does: the state the body leaves,
    with one more log line when it raised; the loop then goes on. *)
Definition apos_turno (processar : string -> M (list registro))
    (idx total : nat) (nome : string) (st : estado) : estado :=
  match processar nome (com_log st [InfoProcessando idx total nome]) with
  | (Retorna _, st') => st'
  | (Levanta e, st') => com_log st' [ErroProcessar nome e]
  end.

(** ** The rest of the class *)

(** [str.strip] belongs to the Python library: it is left abstract. *)
Variable strip : string -> string.



(** What the portal answers to a search for [nome], when it does: the query
    page loads, it has the name field and the search button, and the
    submission of [nome] is answered. *)
Definition resposta_da_busca (nome : string) (w : Mundo) : option (elemento * Mundo) :=
  match navegar EPROC_URL w with
  | (Some p, w1) =>
      match selecionar_documento p (XPathId "txtStrParte"),
            selecionar_documento p (XPathId "sbmNovo") with
      | _ :: _, _ :: _ =>
          match submeter nome w1 with
          | (Some q, w2) => Some (q, w2)
          | (None, _) => None
          end
      | _, _ => None
      end
  | (None, _) => None
  end.

(** The inner cell of the last row that has one. *)
Definition ultima_celula (linhas : list elemento) : option elemento :=
  last (omap (primeira "td") linhas).

(** The elements with tag [t] inside a block. *)
Definition com_tag (t : string) (div : elemento) : list elemento :=
  List.filter (tem_tag t) (descendentes div).

(** The lines the loop over the rows logs, [idx] being the position of the
    first row: one line for a row without a cell, one warning, carrying the
    position, for a row whose cell has no anchor. *)
Fixpoint avisos_das_linhas (idx : nat) (linhas : list elemento) : list mensagem :=
  match linhas with
  | [] => []
  | linha :: resto =>
      match primeira "td" linha with
      | None => [InfoPulandoCabecario]
      | Some c =>
          match primeira "a" c with
          | None => [WarnErroLinha idx NoSuchElementException]
          | Some _ => []
          end
      end ++ avisos_das_linhas (S idx) resto
  end.

(** Lines 316-336: the case behind a cell is opened and its summary
    container read; this is the end of a turn of the loop over the links,
    once [celulas] is known to be bound. *)
Definition abrir_caso (celulas tabela : WebElement)
    : M (registro * WebElement * option WebElement) :=
  processo <- find_element celulas (TagName "a") ;;
  h <- get_attribute_href processo ;;
  _ <- driver_get h ;;
  _ <- sleep 2 ;;
  processo_info <- extrair_capa ;;
  retornar (processo_info, tabela, Some celulas).

(** What one link gives when nothing fails, and the world it leaves: the
    link's page loads and has a results table, the last row with a cell has
    an anchor with a target, that target loads and has the summary
    container.  [None] when any of this fails. *)
Definition registro_do_link (link : option string) (w : Mundo)
    : option (registro * Mundo) :=
  match link with
  | None => None
  | Some l =>
      match navegar l w with
      | (None, _) => None
      | (Some p, w1) =>
          match filhos_de_id "divInfraAreaTabela" "table" p with
          | [] => None
          | t :: _ =>
              match ultima_celula (linhas_da_tabela t) with
              | None => None
              | Some c =>
                  match primeira "a" c with
                  | None => None
                  | Some a =>
                      match href a with
                      | None => None
                      | Some u =>
                          match navegar u w1 with
                          | (None, _) => None
                          | (Some d, w2) =>
                              match selecionar_documento d (XPathId "fldAssuntos") with
                              | [] => None
                              | capa :: _ =>
                                  Some (registro_dos_blocos (blocos capa), w2)
                              end
                          end
                      end
                  end
              end
          end
      end
  end.

(** The records of the links, in link order, up to the first link that
    fails. *)
Fixpoint registros_dos_links (links : list (option string)) (w : Mundo)
    : list registro :=
  match links with
  | [] => []
  | link :: resto =>
      match registro_do_link link w with
      | None => []
      | Some (info, w') => info :: registros_dos_links resto w'
      end
  end.

(** ** Basic facts about the monad and the log *)

Lemma com_log_nil (st : estado) : com_log st [] = st.
Proof. destruct st; unfold com_log; simpl. by rewrite app_nil_r. Qed.

Lemma com_log_app (st : estado) (a b : list mensagem) :
  com_log (com_log st a) b = com_log st (a ++ b).
Proof. unfold com_log; simpl. by rewrite app_assoc. Qed.

Lemma logging_com_log (m : mensagem) (st : estado) :
  logging m st = (Retorna tt, com_log st [m]).
Proof. reflexivity. Qed.

Lemma ligar_retorna {A B} (m : M A) (f : A -> M B) st a st' :
  m st = (Retorna a, st') -> ligar m f st = f a st'.
Proof. intros H. unfold ligar. by rewrite H. Qed.

Lemma ligar_levanta {A B} (m : M A) (f : A -> M B) st e st' :
  m st = (Levanta e, st') -> ligar m f st = (Levanta e, st').
Proof. intros H. unfold ligar. by rewrite H. Qed.

Lemma tentar_retorna {A} (m : M A) classe h st a st' :
  m st = (Retorna a, st') -> tentar m classe h st = (Retorna a, st').
Proof. intros H. unfold tentar. by rewrite H. Qed.

Lemma tentar_levanta {A} (m : M A) classe h st (e : excecao) st' :
  m st = (Levanta e, st') -> classe e = true -> tentar m classe h st = h e st'.
Proof. intros H Hc. unfold tentar. by rewrite H, Hc. Qed.

(** ** Elements of the current page *)

Lemma fresca_com_log st lg e : fresca st e -> fresca (com_log st lg) e.
Proof. done. Qed.

Lemma referencias_frescas st l : Forall (fresca st) (referencias (geracao st) l).
Proof. unfold referencias. apply Forall_map, Forall_true. done. Qed.

Lemma we_elem_referencias g l : map we_elem (referencias g l) = l.
Proof. unfold referencias. rewrite map_map. simpl. apply map_id. Qed.

Lemma vigente_fresca {A} e (k : elemento -> M A) st :
  fresca st e -> vigente e k st = k (we_elem e) st.
Proof. unfold fresca, vigente. intros ->. by rewrite Nat.eqb_refl. Qed.

Lemma find_elements_fresca e s st :
  fresca st e ->
  find_elements e s st =
    (Retorna (referencias (geracao st) (selecionar_elemento (pagina st) (we_elem e) s)), st).
Proof. intros H. unfold find_elements. by rewrite vigente_fresca. Qed.

Lemma find_element_fresca e s st :
  fresca st e ->
  find_element e s st =
    match selecionar_elemento (pagina st) (we_elem e) s with
    | [] => (Levanta NoSuchElementException, st)
    | x :: _ => (Retorna (MkWebElement (geracao st) x), st)
    end.
Proof.
  intros H. unfold find_element, ligar. rewrite find_elements_fresca by done.
  by destruct (selecionar_elemento _ _ _).
Qed.

Lemma we_text_fresca e st : fresca st e -> we_text e st = (Retorna (text (we_elem e)), st).
Proof. intros H. unfold we_text. by rewrite vigente_fresca. Qed.

Lemma we_tag_name_fresca e st :
  fresca st e -> we_tag_name e st = (Retorna (tag_name (we_elem e)), st).
Proof. intros H. unfold we_tag_name. by rewrite vigente_fresca. Qed.

Lemma get_attribute_href_fresca e st :
  fresca st e -> get_attribute_href e st = (Retorna (href (we_elem e)), st).
Proof. intros H. unfold get_attribute_href. by rewrite vigente_fresca. Qed.

Lemma driver_find_element_eq s st :
  driver_find_element s st =
    match selecionar_documento (pagina st) s with
    | [] => (Levanta NoSuchElementException, st)
    | x :: _ => (Retorna (MkWebElement (geracao st) x), st)
    end.
Proof.
  unfold driver_find_element, ligar, driver_find_elements.
  by destruct (selecionar_documento _ _).
Qed.

(** ** The result store *)

Lemma registrar_eq nome ps st :
  registrar nome ps st =
    (Retorna tt,
     MkEstado (mundo st) (geracao st) (pagina st) (campo st)
              (<[nome := ps]> (resultados st)) (log st)).
Proof. reflexivity. Qed.

(** C8: recording [A] and then [B] under the same name leaves [B] there
    (the entry is overwritten, nothing is appended), and what any other name
    holds is not touched, by one recording or by both. *)
Theorem registrar_sobrescreve (st : estado) (X Y : string) (A B : list registro) :
  Y <> X ->
  let st1 := snd (registrar X A st) in
  let st2 := snd (registrar X B st1) in
  fst (registrar X A st) = Retorna tt /\
  fst (registrar X B st1) = Retorna tt /\
  resultados st1 !! X = Some A /\
  resultados st2 !! X = Some B /\
  resultados st1 !! Y = resultados st !! Y /\
  resultados st2 !! Y = resultados st !! Y.
Proof.
  intros Hne. simpl.
  repeat split.
  - apply lookup_insert_eq.
  - apply lookup_insert_eq.
  - by rewrite lookup_insert_ne.
  - by rewrite !lookup_insert_ne.
Qed.

(** C10: whatever the store holds, the summary report carries an empty
    per-name mapping; only the number of stored names and the date are
    filled in, and the store is left as it was. *)
Theorem relatorio_sem_nomes (agora : string) (st : estado) :
  exists r,
    gerar_relatorio_resumido agora st = (Retorna r, st) /\
    processos_por_nome r = ∅ /\
    (forall nome, processos_por_nome r !! nome = None) /\
    relatorio_total_processos r = size (resultados st) /\
    data_geracao r = agora.
Proof.
  eexists. split; [reflexivity|]. simpl. repeat split.
Qed.

(** ** No results *)

Lemma extrair_sem_resultados nome st :
  indicador_vazio (pagina st) ->
  extrair_dados_processos nome st = (Retorna [], com_log st [InfoNenhumProcesso nome]).
Proof.
  unfold indicador_vazio. intros H.
  unfold extrair_dados_processos.
  apply tentar_retorna.
  unfold ligar at 1. unfold sleep, retornar at 1.
  apply ligar_retorna with (a := true) (st' := com_log st [InfoNenhumProcesso nome]).
  apply tentar_retorna.
  unfold ligar at 1. rewrite driver_find_element_eq. simpl.
  destruct (filhos_de_id _ _ _); [done|]. reflexivity.
Qed.

(** C5: when the page reached by the search shows the "no results"
    indicator, the extraction returns the empty list without raising, and
    (the search having succeeded) [processar_nome] commits the empty list
    under the queried name. *)
Theorem sem_resultados_lista_vazia (nome : string) (st0 st1 : estado) :
  realizar_busca nome (com_log st0 [InfoIniciandoProcessamento nome]) = (Retorna true, st1) ->
  indicador_vazio (pagina st1) ->
  extrair_dados_processos nome st1 = (Retorna [], com_log st1 [InfoNenhumProcesso nome]) /\
  fst (processar_nome nome st0) = Retorna [] /\
  resultados (snd (processar_nome nome st0)) !! nome = Some [].
Proof.
  intros Hb Hv.
  pose proof (extrair_sem_resultados nome st1 Hv) as He.
  split; [exact He|].
  unfold processar_nome, ligar. rewrite logging_com_log, Hb. simpl.
  rewrite He. simpl. split; [done|]. apply lookup_insert_eq.
Qed.

(** ** The field extractor *)

Lemma ver_label p e : tag_name e = "label" -> ver p e = (text e, snd p).
Proof. unfold ver, classificar. by intros ->. Qed.

Lemma ver_span p e : tag_name e = "span" -> ver p e = (fst p, text e).
Proof. unfold ver, classificar. by intros ->. Qed.

Lemma ver_outro p e :
  tag_name e <> "label" -> tag_name e <> "span" -> ver p e = p.
Proof.
  unfold ver, classificar. intros Hl Hs.
  apply String.eqb_neq in Hl, Hs. by rewrite Hl, Hs.
Qed.

Lemma ver_chave_sem_label p e : tag_name e <> "label" -> fst (ver p e) = fst p.
Proof.
  unfold ver, classificar. intros Hl. apply String.eqb_neq in Hl. rewrite Hl.
  by destruct (String.eqb (tag_name e) "span").
Qed.

Lemma ver_valor_sem_span p e : tag_name e <> "span" -> snd (ver p e) = snd p.
Proof.
  unfold ver, classificar. intros Hs. apply String.eqb_neq in Hs. rewrite Hs.
  by destruct (String.eqb (tag_name e) "label").
Qed.

Lemma chave_sem_label l : forall p,
  Forall (fun e => tag_name e <> "label") l -> fst (fold_left ver l p) = fst p.
Proof.
  induction l as [|e l IH]; intros p H; [done|].
  inversion H; subst. simpl. rewrite IH by done. by apply ver_chave_sem_label.
Qed.

Lemma valor_sem_span l : forall p,
  Forall (fun e => tag_name e <> "span") l -> snd (fold_left ver l p) = snd p.
Proof.
  induction l as [|e l IH]; intros p H; [done|].
  inversion H; subst. simpl. rewrite IH by done. by apply ver_valor_sem_span.
Qed.

Lemma chave_ultimo_label l1 e l2 p :
  tag_name e = "label" -> Forall (fun x => tag_name x <> "label") l2 ->
  fst (fold_left ver (l1 ++ e :: l2) p) = text e.
Proof.
  intros He H2. rewrite fold_left_app. simpl.
  rewrite chave_sem_label by done. by rewrite ver_label.
Qed.

Lemma valor_ultimo_span l1 e l2 p :
  tag_name e = "span" -> Forall (fun x => tag_name x <> "span") l2 ->
  snd (fold_left ver (l1 ++ e :: l2) p) = text e.
Proof.
  intros He H2. rewrite fold_left_app. simpl.
  rewrite valor_sem_span by done. by rewrite ver_span.
Qed.

(** The scan of lines 327-333 computes the pending pair of the
    specification. *)
Lemma laco_elements_frescos els : forall c v st,
  Forall (fresca st) els ->
  laco_elements els c v st = (Retorna (fold_left ver (map we_elem els) (c, v)), st).
Proof.
  induction els as [|x els IH]; intros c v st H; [done|].
  inversion H as [|? ? Hx Hels]; subst.
  simpl. unfold ligar at 1. rewrite we_tag_name_fresca by done.
  unfold ver at 2, classificar.
  destruct (String.eqb (tag_name (we_elem x)) "label").
  - unfold ligar. rewrite we_text_fresca by done. by apply IH.
  - unfold ligar at 1. rewrite we_tag_name_fresca by done.
    destruct (String.eqb (tag_name (we_elem x)) "span").
    + unfold ligar. rewrite we_text_fresca by done. by apply IH.
    + by apply IH.
Qed.

Lemma bloco_fresco i n div info st :
  fresca st div ->
  bloco i n div info st =
    (Retorna (comprometer info (we_elem div)), com_log st [InfoExtraindoDiv i n]).
Proof.
  intros H. unfold bloco. unfold ligar at 1. rewrite logging_com_log.
  unfold ligar at 1. rewrite find_elements_fresca by done.
  unfold ligar. rewrite laco_elements_frescos by apply referencias_frescas.
  by rewrite we_elem_referencias.
Qed.

Lemma laco_divs_frescos divs : forall i n info st,
  Forall (fresca st) divs ->
  exists lg,
    laco_divs divs i n info st =
      (Retorna (fold_left comprometer (map we_elem divs) info), com_log st lg).
Proof.
  induction divs as [|d divs IH]; intros i n info st H.
  - exists []. by rewrite com_log_nil.
  - inversion H as [|? ? Hd Hdivs]; subst.
    destruct (IH (S i) n (comprometer info (we_elem d))
                 (com_log st [InfoExtraindoDiv i n])) as [lg Hlg]; [done|].
    exists (InfoExtraindoDiv i n :: lg).
    simpl. unfold ligar. rewrite bloco_fresco by done.
    rewrite Hlg. by rewrite com_log_app.
Qed.

Lemma extrair_capa_eq st capa resto :
  selecionar_documento (pagina st) (XPathId "fldAssuntos") = capa :: resto ->
  exists lg,
    extrair_capa st = (Retorna (registro_dos_blocos (blocos capa)), com_log st lg).
Proof.
  intros H. unfold extrair_capa. unfold ligar at 1.
  rewrite driver_find_element_eq, H.
  unfold ligar at 1. rewrite find_elements_fresca by done. simpl we_elem.
  destruct (laco_divs_frescos
              (referencias (geracao st) (selecionar_elemento (pagina st) capa (TagName "div")))
              1 (length (referencias (geracao st)
                           (selecionar_elemento (pagina st) capa (TagName "div"))))
              ∅ st) as [lg Hlg]; [apply referencias_frescas|].
  exists lg. rewrite Hlg. by rewrite we_elem_referencias.
Qed.

(** C6: on a detail page with a summary container, the extractor returns the
    record built from the container's blocks, each block committing the pair
    its descendants leave pending; a descendant is classified by its role:
    a label sets the pending name, a value sets the pending value, anything
    else changes nothing.  The two blocks (Classe, Cível) and (Assunto,
    Contrato) give the record with exactly these two fields. *)
Theorem extrair_capa_por_papel (st : estado) (capa : elemento) (resto : list elemento) :
  selecionar_documento (pagina st) (XPathId "fldAssuntos") = capa :: resto ->
  (exists lg,
     extrair_capa st = (Retorna (registro_dos_blocos (blocos capa)), com_log st lg)) /\
  (forall p e, tag_name e = "label" -> ver p e = (text e, snd p)) /\
  (forall p e, tag_name e = "span" -> ver p e = (fst p, text e)) /\
  (forall p e, tag_name e <> "label" -> tag_name e <> "span" -> ver p e = p) /\
  registro_dos_blocos
    [ Exemplos.campo_rotulado "Classe" "Cível";
      Exemplos.campo_rotulado "Assunto" "Contrato" ]
  = <["Assunto" := "Contrato"]> (<["Classe" := "Cível"]> ∅).
Proof.
  intros H. split; [by eapply extrair_capa_eq|].
  split; [apply ver_label|]. split; [apply ver_span|]. split; [apply ver_outro|].
  reflexivity.
Qed.

(** C7: a block commits exactly one pair, under one key, whatever its
    descendants are.  Without a label the key is the empty string; without a
    value the value is the empty string; when labels or values repeat, the
    last label and the last value are the ones committed. *)
Theorem bloco_compromete_um_par (i n : nat) (div : WebElement) (info : registro)
    (st : estado) :
  fresca st div ->
  let ds := descendentes (we_elem div) in
  let par := par_do_bloco ds in
  bloco i n div info st =
    (Retorna (<[fst par := snd par]> info), com_log st [InfoExtraindoDiv i n]) /\
  (<[fst par := snd par]> info) !! fst par = Some (snd par) /\
  (forall k, k <> fst par -> (<[fst par := snd par]> info) !! k = info !! k) /\
  (Forall (fun e => tag_name e <> "label") ds -> fst par = "") /\
  (Forall (fun e => tag_name e <> "span") ds -> snd par = "") /\
  (forall l1 e l2, ds = l1 ++ e :: l2 -> tag_name e = "label" ->
     Forall (fun x => tag_name x <> "label") l2 -> fst par = text e) /\
  (forall l1 e l2, ds = l1 ++ e :: l2 -> tag_name e = "span" ->
     Forall (fun x => tag_name x <> "span") l2 -> snd par = text e).
Proof.
  intros H ds par.
  split; [by apply bloco_fresco|].
  split; [apply lookup_insert_eq|].
  split; [intros k Hk; by rewrite lookup_insert_ne|].
  split; [intros Hl; unfold par, par_do_bloco; by rewrite chave_sem_label|].
  split; [intros Hs; unfold par, par_do_bloco; by rewrite valor_sem_span|].
  split.
  - intros l1 e l2 Hds He Hl2. unfold par, par_do_bloco. rewrite Hds.
    by apply chave_ultimo_label.
  - intros l1 e l2 Hds He Hl2. unfold par, par_do_bloco. rewrite Hds.
    by apply valor_ultimo_span.
Qed.

(** ** The results locator *)

Lemma links_por_igualdade_cons nome linha resto :
  links_por_igualdade nome (linha :: resto) =
    links_por_igualdade nome [linha] ++ links_por_igualdade nome resto.
Proof.
  simpl. destruct (ancora_da_linha linha) as [a|]; [|done].
  by destruct (String.eqb (text a) nome).
Qed.

Lemma links_por_igualdade_app nome l1 l2 :
  links_por_igualdade nome (l1 ++ l2) =
    links_por_igualdade nome l1 ++ links_por_igualdade nome l2.
Proof.
  induction l1 as [|x l1 IH]; [done|].
  rewrite <- app_comm_cons, links_por_igualdade_cons, IH.
  rewrite (links_por_igualdade_cons nome x l1). by rewrite app_assoc.
Qed.

(** A link is returned exactly when some row's anchor carries the queried
    name, letter for letter, and the link is that anchor's target. *)
Lemma links_por_igualdade_elem nome linhas h :
  h ∈ links_por_igualdade nome linhas <->
  exists linha a, linha ∈ linhas /\ ancora_da_linha linha = Some a /\
                  text a = nome /\ href a = h.
Proof.
  induction linhas as [|x l IH].
  - simpl. split; [intros H; inversion H|].
    intros (linha & a & H & _). inversion H.
  - rewrite links_por_igualdade_cons, elem_of_app, IH. simpl. split.
    + intros [H|(linha & a & Hin & Ha)].
      * destruct (ancora_da_linha x) as [a|] eqn:Ea; [|inversion H].
        destruct (String.eqb (text a) nome) eqn:Et; [|inversion H].
        apply String.eqb_eq in Et. apply list_elem_of_singleton in H.
        exists x, a. repeat split; [left|done|done|done].
      * exists linha, a. split; [by right|done].
    + intros (linha & a & Hin & Ha & Ht & Hh).
      apply elem_of_cons in Hin as [->|Hin].
      * left. rewrite Ha. apply String.eqb_eq in Ht. rewrite Ht, Hh. left.
      * right. by exists linha, a.
Qed.

(** One row of the table, lines 278-294. *)
Lemma linha_da_busca_fresca nome idx linha links cel st :
  fresca st linha ->
  exists cel' lg,
    linha_da_busca nome idx linha links cel st =
      (Retorna (links ++ links_por_igualdade nome [we_elem linha], cel'),
       com_log st lg).
Proof.
  intros H. unfold linha_da_busca. unfold ligar at 1. unfold tentar at 1.
  unfold ligar at 1. rewrite find_element_fresca by done.
  simpl links_por_igualdade. unfold ancora_da_linha, primeira.
  simpl selecionar_elemento.
  destruct (List.filter (tem_tag "td") (descendentes (we_elem linha))) as [|c cs].
  - simpl. exists cel, [InfoPulandoCabecario]. by rewrite app_nil_r.
  - simpl. unfold tentar. unfold ligar at 1.
    rewrite find_element_fresca by done. simpl.
    destruct (List.filter (tem_tag "a") (descendentes c)) as [|a ancoras].
    + simpl. exists (Some (MkWebElement (geracao st) c)), [WarnErroLinha idx NoSuchElementException].
      by rewrite app_nil_r.
    + simpl. unfold ligar at 1. rewrite we_text_fresca by done. simpl.
      destruct (String.eqb (text a) nome).
      * simpl. unfold ligar. rewrite get_attribute_href_fresca by done. simpl.
        exists (Some (MkWebElement (geracao st) c)), []. by rewrite com_log_nil.
      * simpl. exists (Some (MkWebElement (geracao st) c)), [].
        by rewrite com_log_nil, app_nil_r.
Qed.

Lemma laco_linhas_frescas nome linhas : forall idx links cel st,
  Forall (fresca st) linhas ->
  exists cel' lg,
    laco_linhas nome linhas idx links cel st =
      (Retorna (links ++ links_por_igualdade nome (map we_elem linhas), cel'),
       com_log st lg).
Proof.
  induction linhas as [|x linhas IH]; intros idx links cel st H.
  - exists cel, []. simpl. by rewrite app_nil_r, com_log_nil.
  - inversion H as [|? ? Hx Hl]; subst.
    destruct (linha_da_busca_fresca nome idx x links cel st Hx) as (c1 & lg1 & E1).
    destruct (IH (S idx) (links ++ links_por_igualdade nome [we_elem x]) c1
                 (com_log st lg1)) as (c2 & lg2 & E2); [done|].
    exists c2, (lg1 ++ lg2).
    cbn [laco_linhas]. unfold ligar. rewrite E1. cbn [fst snd].
    rewrite E2. rewrite com_log_app, <- app_assoc.
    cbn [map]. by rewrite <- links_por_igualdade_cons.
Qed.

(** C4: for every results table and queried name, lines 274-294 end with
    [links] holding exactly the targets of the rows' anchors whose text is
    equal to the name (plain string equality), in row order, and they never
    raise.  A row without an inner cell contributes nothing.  The table with
    a header row, ("ADILSON DA SILVA", L1) and ("OUTRO NOME", L2) gives
    exactly [L1] for the query "ADILSON DA SILVA", and nothing for the same
    name in lower case. *)
Theorem localizar_links_por_igualdade (nome : string) (tabela : WebElement) (st : estado) :
  fresca st tabela ->
  (exists celulas lg,
     localizar_links nome tabela st =
       (Retorna (links_por_igualdade nome (linhas_da_tabela (we_elem tabela)), celulas),
        com_log st lg)) /\
  (forall h, h ∈ links_por_igualdade nome (linhas_da_tabela (we_elem tabela)) <->
     exists linha a, linha ∈ linhas_da_tabela (we_elem tabela) /\
                     ancora_da_linha linha = Some a /\ text a = nome /\ href a = h) /\
  (forall l1 linha l2, primeira "td" linha = None ->
     links_por_igualdade nome (l1 ++ linha :: l2) =
       links_por_igualdade nome l1 ++ links_por_igualdade nome l2) /\
  links_por_igualdade "ADILSON DA SILVA"
    [ Exemplos.cabecalho;
      Exemplos.linha_com "ADILSON DA SILVA" "L1";
      Exemplos.linha_com "OUTRO NOME" "L2" ] = [ Some "L1" ] /\
  links_por_igualdade "adilson da silva"
    [ Exemplos.cabecalho;
      Exemplos.linha_com "ADILSON DA SILVA" "L1";
      Exemplos.linha_com "OUTRO NOME" "L2" ] = [].
Proof.
  intros H. split; [|split; [|split; [|split]]].
  - unfold localizar_links. unfold ligar at 1.
    rewrite find_elements_fresca by done.
    unfold ligar at 1. rewrite logging_com_log. unfold ligar.
    set (linhas := referencias (geracao st)
                     (selecionar_elemento (pagina st) (we_elem tabela) (TagName "tr"))).
    destruct (laco_linhas_frescas nome linhas 1 [] None
                (com_log st [InfoLinhasEncontradas (length linhas)]))
      as (c & lg & E); [exact (referencias_frescas st _)|].
    exists c, (InfoLinhasEncontradas (length linhas) :: lg).
    rewrite E, com_log_app. unfold linhas. by rewrite we_elem_referencias.
  - intros h. apply links_por_igualdade_elem.
  - intros l1 linha l2 Htd.
    rewrite links_por_igualdade_app, (links_por_igualdade_cons nome linha l2).
    simpl. unfold ancora_da_linha. by rewrite Htd.
  - reflexivity.
  - reflexivity.
Qed.

(** ** Browser work never touches the store *)

Lemma estende_refl st : estende st st.
Proof. split; [done|]. exists []. by rewrite app_nil_r. Qed.

Lemma estende_trans st1 st2 st3 : estende st1 st2 -> estende st2 st3 -> estende st1 st3.
Proof.
  intros [R1 (l1 & L1 & F1)] [R2 (l2 & L2 & F2)]. split; [congruence|].
  exists (l1 ++ l2). split; [by rewrite L2, L1, app_assoc|by apply Forall_app].
Qed.

Lemma estende_mesmo_resto w g p c w' g' p' c' r l :
  estende (MkEstado w g p c r l) (MkEstado w' g' p' c' r l).
Proof. split; [done|]. exists []. simpl. by rewrite app_nil_r. Qed.

Lemma quieto_retornar {A} (a : A) : quieto (retornar a).
Proof. intros st. apply estende_refl. Qed.

Lemma quieto_levantar {A} e : quieto (@levantar A e).
Proof. intros st. apply estende_refl. Qed.

Lemma quieto_sleep n : quieto (sleep n).
Proof. intros st. apply estende_refl. Qed.

Lemma quieto_logging m : interna m = true -> quieto (logging m).
Proof.
  intros H st. split; [done|]. exists [m]. split; [done|]. by constructor.
Qed.

Lemma quieto_ligar {A B} (m : M A) (f : A -> M B) :
  quieto m -> (forall a, quieto (f a)) -> quieto (ligar m f).
Proof.
  intros Hm Hf st. unfold ligar. specialize (Hm st).
  destruct (m st) as [[a|e] st1]; simpl in *; [|done].
  eapply estende_trans; [exact Hm|apply Hf].
Qed.

Lemma quieto_tentar {A} (m : M A) classe h :
  quieto m -> (forall e, quieto (h e)) -> quieto (tentar m classe h).
Proof.
  intros Hm Hh st. unfold tentar. specialize (Hm st).
  destruct (m st) as [[a|e] st1]; simpl in *; [done|].
  destruct (classe e); [|done].
  eapply estende_trans; [exact Hm|apply Hh].
Qed.

Lemma quieto_vigente {A} e (k : elemento -> M A) :
  (forall x, quieto (k x)) -> quieto (vigente e k).
Proof.
  intros Hk st. unfold vigente.
  destruct (Nat.eqb _ _); [apply Hk|apply estende_refl].
Qed.

Lemma quieto_driver_get url : quieto (driver_get url).
Proof.
  intros st. unfold driver_get. destruct url as [u|]; [|apply estende_refl].
  destruct st as [w g p c r l]. simpl.
  destruct (navegar u w) as [[q|] w']; apply estende_mesmo_resto.
Qed.

Lemma quieto_driver_find_elements s : quieto (driver_find_elements s).
Proof. intros st. apply estende_refl. Qed.

Lemma quieto_find_elements e s : quieto (find_elements e s).
Proof. apply quieto_vigente. intros x st. apply estende_refl. Qed.

Lemma quieto_clear e : quieto (clear e).
Proof.
  apply quieto_vigente. intros x st. destruct st. apply estende_mesmo_resto.
Qed.

Lemma quieto_send_keys e txt : quieto (send_keys e txt).
Proof.
  apply quieto_vigente. intros x st. destruct st. apply estende_mesmo_resto.
Qed.

Lemma quieto_click e : quieto (click e).
Proof.
  apply quieto_vigente. intros x st. destruct st as [w g p c r l]. simpl.
  destruct (submeter c w) as [[q|] w']; apply estende_mesmo_resto.
Qed.

(** One step of a proof that a computation only does browser work. *)
Ltac quieto_passo :=
  lazymatch goal with
  | |- quieto (ligar _ _) => apply quieto_ligar; [|intros ?]
  | |- quieto (tentar _ _ _) => apply quieto_tentar; [|intros ?]
  | |- quieto (retornar _) => apply quieto_retornar
  | |- quieto (levantar _) => apply quieto_levantar
  | |- quieto (sleep _) => apply quieto_sleep
  | |- quieto (logging _) => apply quieto_logging; reflexivity
  | |- quieto (vigente _ _) => apply quieto_vigente; intros ?
  | |- quieto (driver_get _) => apply quieto_driver_get
  | |- quieto (driver_find_elements _) => apply quieto_driver_find_elements
  | |- quieto (find_elements _ _) => apply quieto_find_elements
  | |- quieto (clear _) => apply quieto_clear
  | |- quieto (send_keys _ _) => apply quieto_send_keys
  | |- quieto (click _) => apply quieto_click
  | |- quieto (match ?x with _ => _ end) => destruct x
  end.

Ltac quieto_tudo := repeat quieto_passo.

Lemma quieto_driver_find_element s : quieto (driver_find_element s).
Proof. unfold driver_find_element. quieto_tudo. Qed.

Lemma quieto_find_element e s : quieto (find_element e s).
Proof. unfold find_element. quieto_tudo. Qed.

Lemma quieto_we_text e : quieto (we_text e).
Proof. unfold we_text. quieto_tudo. Qed.

Lemma quieto_we_tag_name e : quieto (we_tag_name e).
Proof. unfold we_tag_name. quieto_tudo. Qed.

Lemma quieto_get_attribute_href e : quieto (get_attribute_href e).
Proof. unfold get_attribute_href. quieto_tudo. Qed.

Lemma quieto__aguardar_elemento s : quieto (_aguardar_elemento s).
Proof.
  unfold _aguardar_elemento, wait_until_presence.
  quieto_tudo; apply quieto_driver_find_element.
Qed.

Lemma quieto_realizar_busca nome : quieto (realizar_busca nome).
Proof.
  unfold realizar_busca.
  quieto_tudo; apply quieto__aguardar_elemento.
Qed.

Lemma quieto_linha_da_busca nome idx linha links cel :
  quieto (linha_da_busca nome idx linha links cel).
Proof.
  unfold linha_da_busca.
  quieto_tudo;
    first [apply quieto_find_element | apply quieto_we_text
          | apply quieto_get_attribute_href].
Qed.

Lemma quieto_laco_linhas nome linhas : forall idx links cel,
  quieto (laco_linhas nome linhas idx links cel).
Proof.
  induction linhas as [|x l IH]; intros idx links cel; simpl.
  - apply quieto_retornar.
  - apply quieto_ligar; [apply quieto_linha_da_busca|]. intros r. apply IH.
Qed.

Lemma quieto_localizar_links nome tabela : quieto (localizar_links nome tabela).
Proof. unfold localizar_links. quieto_tudo. apply quieto_laco_linhas. Qed.

Lemma quieto_laco_celulas linhas : forall cel, quieto (laco_celulas linhas cel).
Proof.
  induction linhas as [|x l IH]; intros cel; simpl.
  - apply quieto_retornar.
  - apply quieto_ligar; [|intros c; apply IH].
    quieto_tudo. apply quieto_find_element.
Qed.

Lemma quieto_laco_elements els : forall c v, quieto (laco_elements els c v).
Proof.
  induction els as [|x l IH]; intros c v; simpl.
  - apply quieto_retornar.
  - apply quieto_ligar; [apply quieto_we_tag_name|]. intros t.
    destruct (String.eqb t "label").
    + apply quieto_ligar; [apply quieto_we_text|]. intros y. apply IH.
    + apply quieto_ligar; [apply quieto_we_tag_name|]. intros t'.
      destruct (String.eqb t' "span"); [|apply IH].
      apply quieto_ligar; [apply quieto_we_text|]. intros y. apply IH.
Qed.

Lemma quieto_bloco i n div info : quieto (bloco i n div info).
Proof. unfold bloco. quieto_tudo. apply quieto_laco_elements. Qed.

Lemma quieto_laco_divs divs : forall i n info, quieto (laco_divs divs i n info).
Proof.
  induction divs as [|d l IH]; intros i n info; simpl.
  - apply quieto_retornar.
  - apply quieto_ligar; [apply quieto_bloco|]. intros r. apply IH.
Qed.

Lemma quieto_extrair_capa : quieto extrair_capa.
Proof.
  unfold extrair_capa. quieto_tudo;
    [apply quieto_driver_find_element|apply quieto_laco_divs].
Qed.

Lemma quieto_extrair_link nome i n link tabela cel :
  quieto (extrair_link nome i n link tabela cel).
Proof.
  unfold extrair_link.
  quieto_tudo;
    first [apply quieto_driver_find_element | apply quieto_laco_celulas
          | apply quieto_find_element | apply quieto_get_attribute_href
          | apply quieto_extrair_capa].
Qed.

Lemma quieto_laco_links nome links : forall i n tabela cel ps,
  quieto (laco_links nome links i n tabela cel ps).
Proof.
  induction links as [|x l IH]; intros i n tabela cel ps; simpl.
  - apply quieto_retornar.
  - intros st. pose proof (quieto_extrair_link nome i n x tabela cel st) as H.
    destruct (extrair_link nome i n x tabela cel st) as [[[[info t] c]|e] st1];
      simpl in *; [|done].
    eapply estende_trans; [exact H|apply IH].
Qed.

Lemma quieto_extrair_dados_processos nome : quieto (extrair_dados_processos nome).
Proof.
  unfold extrair_dados_processos.
  quieto_tudo;
    first [apply quieto_driver_find_element | apply quieto_localizar_links
          | apply quieto_laco_links].
Qed.

(** The loop over the links has no handler of its own: when a link raises,
    the links after it are dropped, and the records collected before it are
    what the method returns. *)
Lemma laco_links_interrompe nome link resto i n tabela cel ps st e st' :
  extrair_link nome i n link tabela cel st = (Levanta e, st') ->
  laco_links nome (link :: resto) i n tabela cel ps st = (Retorna (ps, Some e), st').
Proof. intros H. cbn [laco_links]. by rewrite H. Qed.

Lemma laco_links_segue nome link resto i n tabela cel ps st info tabela' cel' st' :
  extrair_link nome i n link tabela cel st = (Retorna (info, tabela', cel'), st') ->
  laco_links nome (link :: resto) i n tabela cel ps st =
    laco_links nome resto (S i) n tabela' cel' (ps ++ [info]) st'.
Proof. intros H. cbn [laco_links]. by rewrite H. Qed.

(** ** What always returns *)

Lemma nunca_levanta_tentar {A} (m : M A) (h : excecao -> M A) :
  (forall e, nunca_levanta (h e)) -> nunca_levanta (tentar m e_Exception h).
Proof.
  intros Hh st. unfold tentar.
  destruct (m st) as [[a|e] st1]; simpl; [by exists a|apply Hh].
Qed.

Lemma nunca_levanta_realizar_busca nome : nunca_levanta (realizar_busca nome).
Proof.
  unfold realizar_busca. apply nunca_levanta_tentar. intros e st. by exists false.
Qed.

Lemma nunca_levanta_extrair_dados_processos nome :
  nunca_levanta (extrair_dados_processos nome).
Proof.
  unfold extrair_dados_processos. apply nunca_levanta_tentar.
  intros e st. by exists [].
Qed.

(** ** One name *)

Lemma nomes_iniciados_app a b :
  nomes_iniciados (a ++ b) = nomes_iniciados a ++ nomes_iniciados b.
Proof. apply omap_app. Qed.

Lemma nomes_anunciados_app a b :
  nomes_anunciados (a ++ b) = nomes_anunciados a ++ nomes_anunciados b.
Proof. apply omap_app. Qed.

Lemma internas_sem_nomes lg :
  Forall (fun m => interna m = true) lg ->
  nomes_iniciados lg = [] /\ nomes_anunciados lg = [].
Proof.
  induction 1 as [|m l Hm Hl [IH1 IH2]]; [done|].
  change (m :: l) with ([m] ++ l).
  rewrite nomes_iniciados_app, nomes_anunciados_app, IH1, IH2.
  by destruct m.
Qed.

(** What [processar_nome] does once the search has returned [True]. *)
Lemma processar_nome_busca_ok nome st st1 :
  realizar_busca nome (com_log st [InfoIniciandoProcessamento nome]) = (Retorna true, st1) ->
  exists ps st2,
    extrair_dados_processos nome st1 = (Retorna ps, st2) /\
    fst (processar_nome nome st) = Retorna ps /\
    log (snd (processar_nome nome st)) = log st2 /\
    resultados (snd (processar_nome nome st)) = <[nome := ps]> (resultados st).
Proof.
  intros Hb.
  destruct (nunca_levanta_extrair_dados_processos nome st1) as [ps Hps].
  pose proof (quieto_extrair_dados_processos nome st1) as [Hr _].
  pose proof (quieto_realizar_busca nome
                (com_log st [InfoIniciandoProcessamento nome])) as [Hr1 _].
  rewrite Hb in Hr1. simpl in Hr1.
  destruct (extrair_dados_processos nome st1) as [r st2] eqn:E. simpl in *. subst r.
  exists ps, st2. split; [done|].
  unfold processar_nome, ligar. rewrite logging_com_log, Hb. simpl. rewrite E. simpl.
  repeat split. by rewrite Hr, Hr1.
Qed.

(** What [processar_nome] does once the search has returned [False]: the
    early return of line 359 comes before the store is written. *)
Lemma processar_nome_busca_falha nome st st1 :
  realizar_busca nome (com_log st [InfoIniciandoProcessamento nome]) = (Retorna false, st1) ->
  processar_nome nome st = (Retorna [], com_log st1 [ErroFalhaBusca nome]) /\
  resultados (snd (processar_nome nome st)) = resultados st.
Proof.
  intros Hb.
  pose proof (quieto_realizar_busca nome
                (com_log st [InfoIniciandoProcessamento nome])) as [Hr1 _].
  rewrite Hb in Hr1. simpl in Hr1.
  unfold processar_nome, ligar. rewrite logging_com_log, Hb. simpl.
  split; [done|]. exact Hr1.
Qed.

(** [processar_nome] always returns; it logs its entry line first, and then
    either commits what it returns under the name, or, the search having
    failed, logs the failure and leaves the store alone. *)
Lemma processar_nome_passo nome st :
  exists ps st' lg,
    processar_nome nome st = (Retorna ps, st') /\
    log st' = log st ++ InfoIniciandoProcessamento nome :: lg /\
    nomes_iniciados lg = [] /\ nomes_anunciados lg = [] /\
    (resultados st' = <[nome := ps]> (resultados st) \/
     (resultados st' = resultados st /\ ErroFalhaBusca nome ∈ lg)).
Proof.
  destruct (nunca_levanta_realizar_busca nome
              (com_log st [InfoIniciandoProcessamento nome])) as [b Hb].
  pose proof (quieto_realizar_busca nome
                (com_log st [InfoIniciandoProcessamento nome])) as [Hr1 (l1 & Hl1 & Hf1)].
  destruct (realizar_busca nome (com_log st [InfoIniciandoProcessamento nome]))
    as [r st1] eqn:E.
  simpl in Hb, Hr1, Hl1. subst r.
  destruct (internas_sem_nomes l1 Hf1) as [Hi1 Ha1].
  destruct b.
  - destruct (processar_nome_busca_ok nome st st1 E) as (ps & st2 & E2 & Hfst & Hlog & Hres).
    pose proof (quieto_extrair_dados_processos nome st1) as [_ (l2 & Hl2 & Hf2)].
    rewrite E2 in Hl2. simpl in Hl2.
    destruct (internas_sem_nomes l2 Hf2) as [Hi2 Ha2].
    destruct (processar_nome nome st) as [r st'] eqn:Ep. simpl in *. subst r.
    exists ps, st', (l1 ++ l2). split; [done|].
    split; [by rewrite Hlog, Hl2, Hl1, <- !app_assoc|].
    rewrite nomes_iniciados_app, nomes_anunciados_app, Hi1, Hi2, Ha1, Ha2.
    repeat split. by left.
  - destruct (processar_nome_busca_falha nome st st1 E) as [Ep Hres].
    rewrite Ep in *. simpl in Hres.
    exists [], (com_log st1 [ErroFalhaBusca nome]), (l1 ++ [ErroFalhaBusca nome]).
    split; [done|].
    split; [simpl; by rewrite Hl1, <- !app_assoc|].
    rewrite nomes_iniciados_app, nomes_anunciados_app, Hi1, Ha1.
    repeat split. right. split; [done|].
    apply elem_of_app. right. left.
Qed.

(** ** All the names *)

Lemma laco_nomes_cons processar nome resto idx total st :
  laco_nomes processar (nome :: resto) idx total st =
    laco_nomes processar resto (S idx) total (apos_turno processar idx total nome st).
Proof.
  unfold apos_turno. cbn [laco_nomes]. unfold ligar at 1. rewrite logging_com_log.
  unfold ligar at 1. unfold tentar. unfold ligar at 1.
  by destruct (processar nome (com_log st [InfoProcessando idx total nome]))
    as [[a|e] st'].
Qed.

Lemma laco_nomes_retorna processar nomes : forall idx total st,
  exists st', laco_nomes processar nomes idx total st = (Retorna tt, st').
Proof.
  induction nomes as [|n l IH]; intros idx total st.
  - by exists st.
  - rewrite laco_nomes_cons. apply IH.
Qed.

Lemma apos_turno_processar_nome idx total nome st :
  exists ps lg,
    processar_nome nome (com_log st [InfoProcessando idx total nome])
      = (Retorna ps, apos_turno processar_nome idx total nome st) /\
    log (apos_turno processar_nome idx total nome st)
      = log st ++ InfoProcessando idx total nome :: InfoIniciandoProcessamento nome :: lg /\
    nomes_iniciados lg = [] /\ nomes_anunciados lg = [] /\
    (resultados (apos_turno processar_nome idx total nome st)
       = <[nome := ps]> (resultados st) \/
     (resultados (apos_turno processar_nome idx total nome st) = resultados st /\
      ErroFalhaBusca nome ∈ lg)).
Proof.
  destruct (processar_nome_passo nome (com_log st [InfoProcessando idx total nome]))
    as (ps & st' & lg & E & Hl & Hi & Ha & Hr).
  unfold apos_turno. rewrite E. exists ps, lg.
  split; [done|]. split; [|done].
  rewrite Hl. simpl. by rewrite <- app_assoc.
Qed.

(** The loop over [processar_nome]: every name is announced and entered, in
    list order. *)
Lemma laco_nomes_ordem nomes : forall idx total st,
  exists st' lg,
    laco_nomes processar_nome nomes idx total st = (Retorna tt, st') /\
    log st' = log st ++ lg /\
    nomes_iniciados lg = nomes /\
    nomes_anunciados lg = enumerar idx nomes.
Proof.
  induction nomes as [|n l IH]; intros idx total st.
  - exists st, []. by rewrite app_nil_r.
  - destruct (apos_turno_processar_nome idx total n st)
      as (ps & lg1 & _ & Hl1 & Hi1 & Ha1 & _).
    destruct (IH (S idx) total (apos_turno processar_nome idx total n st))
      as (st' & lg2 & E & Hl2 & Hi2 & Ha2).
    exists st', (InfoProcessando idx total n :: InfoIniciandoProcessamento n :: lg1 ++ lg2).
    rewrite laco_nomes_cons. split; [done|].
    split; [rewrite Hl2, Hl1, <- app_assoc; by simpl|].
    change (InfoProcessando idx total n :: InfoIniciandoProcessamento n :: lg1 ++ lg2)
      with ([InfoProcessando idx total n; InfoIniciandoProcessamento n] ++ lg1 ++ lg2).
    rewrite !nomes_iniciados_app, !nomes_anunciados_app, Hi1, Hi2, Ha1, Ha2.
    split; reflexivity.
Qed.

(** The loop over [processar_nome] and the store: no entry is ever removed,
    and a submitted name either has an entry in the end or saw its search
    fail, with its entry left as it was. *)
Lemma laco_nomes_entradas nomes : forall idx total st,
  exists st' lg,
    laco_nomes processar_nome nomes idx total st = (Retorna tt, st') /\
    log st' = log st ++ lg /\
    forall n,
      (is_Some (resultados st' !! n) \/ resultados st' !! n = resultados st !! n) /\
      (n ∈ nomes ->
       is_Some (resultados st' !! n) \/
       (ErroFalhaBusca n ∈ lg /\ resultados st' !! n = resultados st !! n)).
Proof.
  induction nomes as [|m l IH]; intros idx total st.
  - exists st, []. rewrite app_nil_r. repeat split; [by right|].
    intros H. inversion H.
  - destruct (apos_turno_processar_nome idx total m st)
      as (ps & lg1 & _ & Hl1 & _ & _ & Hr1).
    destruct (IH (S idx) total (apos_turno processar_nome idx total m st))
      as (st' & lg2 & E & Hl2 & Hn).
    set (st1 := apos_turno processar_nome idx total m st) in *.
    exists st', (InfoProcessando idx total m :: InfoIniciandoProcessamento m :: lg1 ++ lg2).
    rewrite laco_nomes_cons. split; [done|].
    split; [rewrite Hl2, Hl1, <- app_assoc; by simpl|].
    intros n. destruct (Hn n) as [Hmono Hin].
    (* what the turn of [m] did to the entry of [n] *)
    assert (Hturno :
      (is_Some (resultados st1 !! n) /\ n = m) \/
      (resultados st1 !! n = resultados st !! n /\ (n = m -> ErroFalhaBusca n ∈ lg1))).
    { destruct Hr1 as [Hr1|[Hr1 Hf]].
      - destruct (decide (n = m)) as [->|Hne].
        + left. rewrite Hr1, lookup_insert_eq. by split.
        + right. rewrite Hr1, lookup_insert_ne by done. by split.
      - right. rewrite Hr1. split; [done|]. by intros ->. }
    split.
    + destruct Hmono as [Hs|Heq]; [by left|].
      destruct Hturno as [[Hs _]|[Heq1 _]].
      * left. by rewrite Heq.
      * right. by rewrite Heq.
    + intros Hel. apply elem_of_cons in Hel.
      destruct Hmono as [Hs|Heq]; [by left|].
      destruct Hturno as [[Hs _]|[Heq1 Hfalha]]; [left; by rewrite Heq|].
      destruct Hel as [->|Hel].
      * right. split; [|by rewrite Heq].
        do 2 right. apply elem_of_app. left. by apply Hfalha.
      * destruct (Hin Hel) as [Hs|[Hf _]]; [by left|].
        right. split; [|by rewrite Heq].
        do 2 right. apply elem_of_app. by right.
Qed.

(** C9: the run never ends with an exception, whatever the body of the loop
    does with any name; after a turn, raised or not, the loop goes on with
    the rest of the list; and with [processar_nome] as the body, the log
    shows every name of the list announced and entered, in list order. *)
Theorem processar_todos_nomes_contem_erros (nomes : list string) (st : estado) :
  (forall processar,
     exists st', processar_todos_nomes_com processar nomes st = (Retorna tt, st')) /\
  (forall processar nome resto idx total s,
     laco_nomes processar (nome :: resto) idx total s =
       laco_nomes processar resto (S idx) total
         (match processar nome (com_log s [InfoProcessando idx total nome]) with
          | (Retorna _, s') => s'
          | (Levanta e, s') => com_log s' [ErroProcessar nome e]
          end)) /\
  (exists st' lg,
     processar_todos_nomes nomes st = (Retorna tt, st') /\
     log st' = log st ++ lg /\
     nomes_iniciados lg = nomes /\
     nomes_anunciados lg = enumerar 1 nomes).
Proof.
  split; [|split].
  - intros processar. unfold processar_todos_nomes_com.
    unfold ligar at 1. rewrite logging_com_log. unfold ligar.
    destruct (laco_nomes_retorna processar nomes 1 (length nomes)
                (com_log st [InfoIniciandoNomes (length nomes)])) as [st1 E].
    rewrite E. rewrite logging_com_log. by eexists.
  - intros. apply laco_nomes_cons.
  - unfold processar_todos_nomes, processar_todos_nomes_com.
    unfold ligar at 1. rewrite logging_com_log. unfold ligar.
    destruct (laco_nomes_ordem nomes 1 (length nomes)
                (com_log st [InfoIniciandoNomes (length nomes)]))
      as (st1 & lg & E & Hl & Hi & Ha).
    rewrite E, logging_com_log.
    exists (com_log st1 [InfoConcluido (size (resultados st1))]),
           (InfoIniciandoNomes (length nomes) :: lg ++ [InfoConcluido (size (resultados st1))]).
    split; [done|].
    split; [simpl; rewrite Hl; simpl; by rewrite <- !app_assoc|].
    change (InfoIniciandoNomes (length nomes) :: lg ++ [InfoConcluido (size (resultados st1))])
      with ([InfoIniciandoNomes (length nomes)] ++ lg ++ [InfoConcluido (size (resultados st1))]).
    rewrite !nomes_iniciados_app, !nomes_anunciados_app, Hi, Ha. simpl.
    by rewrite !app_nil_r.
Qed.

(** C1, as the code has it: after a run, a submitted name has an entry in
    the store, or else every search for it failed, the failure was logged,
    and the store holds for the name what it held before the run (nothing,
    if there was nothing).  A search that succeeds always commits an entry;
    a search that fails commits none. *)
Theorem entrada_apos_busca (nomes : list string) (n : string) (st : estado) :
  n ∈ nomes ->
  (exists st' lg,
     processar_todos_nomes nomes st = (Retorna tt, st') /\
     log st' = log st ++ lg /\
     (is_Some (resultados st' !! n) \/
      (ErroFalhaBusca n ∈ lg /\ resultados st' !! n = resultados st !! n))) /\
  (forall s s1,
     realizar_busca n (com_log s [InfoIniciandoProcessamento n]) = (Retorna true, s1) ->
     exists ps, fst (processar_nome n s) = Retorna ps /\
                resultados (snd (processar_nome n s)) !! n = Some ps) /\
  (forall s s1,
     realizar_busca n (com_log s [InfoIniciandoProcessamento n]) = (Retorna false, s1) ->
     fst (processar_nome n s) = Retorna [] /\
     resultados (snd (processar_nome n s)) = resultados s).
Proof.
  intros Hn. split; [|split].
  - unfold processar_todos_nomes, processar_todos_nomes_com.
    unfold ligar at 1. rewrite logging_com_log. unfold ligar.
    destruct (laco_nomes_entradas nomes 1 (length nomes)
                (com_log st [InfoIniciandoNomes (length nomes)]))
      as (st1 & lg & E & Hl & Hres).
    rewrite E, logging_com_log.
    exists (com_log st1 [InfoConcluido (size (resultados st1))]),
           (InfoIniciandoNomes (length nomes) :: lg ++ [InfoConcluido (size (resultados st1))]).
    split; [done|].
    split; [simpl; rewrite Hl; simpl; by rewrite <- !app_assoc|].
    destruct (Hres n) as [_ Hin]. simpl.
    destruct (Hin Hn) as [Hs|[Hf Heq]]; [by left|].
    right. split; [|done]. right. apply elem_of_app. by left.
  - intros s s1 Hb.
    destruct (processar_nome_busca_ok n s s1 Hb) as (ps & st2 & _ & Hfst & _ & Hres).
    exists ps. split; [done|]. rewrite Hres. apply lookup_insert_eq.
  - intros s s1 Hb.
    destruct (processar_nome_busca_falha n s s1 Hb) as [E Hres].
    split; [by rewrite E|done].
Qed.

(** ** Waiting and searching *)

Lemma aguardar_elemento_eq s st :
  _aguardar_elemento s st =
    match selecionar_documento (pagina st) s with
    | x :: _ => (Retorna (Some (MkWebElement (geracao st) x)), st)
    | [] => (Retorna None, com_log st [WarnTimeoutElemento s])
    end.
Proof.
  unfold _aguardar_elemento, wait_until_presence, tentar, ligar.
  rewrite driver_find_element_eq. by destruct (selecionar_documento _ _).
Qed.


Lemma sleep_eq n st : sleep n st = (Retorna tt, st).
Proof. reflexivity. Qed.

Lemma driver_get_some u st p w :
  navegar u (mundo st) = (Some p, w) ->
  driver_get (Some u) st =
    (Retorna tt, MkEstado w (S (geracao st)) p "" (resultados st) (log st)).
Proof. intros H. unfold driver_get. by rewrite H. Qed.

Lemma driver_get_none u st w :
  navegar u (mundo st) = (None, w) ->
  driver_get (Some u) st =
    (Levanta WebDriverException,
     MkEstado w (S (geracao st)) pagina_em_branco "" (resultados st) (log st)).
Proof. intros H. unfold driver_get. by rewrite H. Qed.

Lemma clear_fresca e st :
  fresca st e ->
  clear e st =
    (Retorna tt,
     MkEstado (mundo st) (geracao st) (pagina st) "" (resultados st) (log st)).
Proof. intros H. unfold clear. by rewrite vigente_fresca. Qed.

Lemma send_keys_fresca e txt st :
  fresca st e ->
  send_keys e txt st =
    (Retorna tt,
     MkEstado (mundo st) (geracao st) (pagina st) (campo st +:+ txt)
              (resultados st) (log st)).
Proof. intros H. unfold send_keys. by rewrite vigente_fresca. Qed.

Lemma click_fresca_some e st q w :
  fresca st e -> submeter (campo st) (mundo st) = (Some q, w) ->
  click e st =
    (Retorna tt, MkEstado w (S (geracao st)) q "" (resultados st) (log st)).
Proof. intros H Hs. unfold click. rewrite vigente_fresca by done. by rewrite Hs. Qed.

Lemma click_fresca_none e st w :
  fresca st e -> submeter (campo st) (mundo st) = (None, w) ->
  click e st =
    (Levanta WebDriverException,
     MkEstado w (S (geracao st)) pagina_em_branco "" (resultados st) (log st)).
Proof. intros H Hs. unfold click. rewrite vigente_fresca by done. by rewrite Hs. Qed.

(** One statement of a sequence has returned: go on with the next. *)
Ltac segue tac := erewrite ligar_retorna by tac; cbn beta iota.

(** [realizar_busca] returns [True] exactly when the portal answers the
    search: the browser is then on the answer to the name itself, whatever
    page it was on and whatever the name field held before, and the log has
    the two lines of a successful search.  In every other case it returns
    [False], never raises, leaves the store alone and ends the log with one
    of its three error lines. *)
Theorem realizar_busca_resposta (nome : string) (st : estado) :
  match resposta_da_busca nome (mundo st) with
  | Some (q, w) =>
      realizar_busca nome st =
        (Retorna true,
         MkEstado w (S (S (geracao st))) q "" (resultados st)
                  (log st ++ [InfoRealizandoBusca nome; InfoBuscaRealizada nome]))
  | None =>
      exists st' lg erro,
        realizar_busca nome st = (Retorna false, st') /\
        resultados st' = resultados st /\
        log st' = log st ++ InfoRealizandoBusca nome :: lg ++ [erro] /\
        erro ∈ [ErroCampoNome; ErroBotaoPesquisa;
                ErroRealizarBusca nome WebDriverException]
  end.
Proof.
  unfold resposta_da_busca.
  destruct (navegar EPROC_URL (mundo st)) as [[p|] w1] eqn:Hnav.
  2:{ eexists _, [], _. split.
      - unfold realizar_busca.
        etrans; [eapply tentar_levanta; [|reflexivity]|reflexivity].
        segue ltac:(apply logging_com_log).
        eapply ligar_levanta. by apply driver_get_none.
      - cbn. split; [done|]. split; [by rewrite <- !app_assoc|]. do 2 right. left. }
  destruct (selecionar_documento p (XPathId "txtStrParte")) as [|x xs] eqn:Hcampo.
  { eexists _, [_], _. split.
    - unfold realizar_busca. apply tentar_retorna.
      segue ltac:(apply logging_com_log).
      segue ltac:(by apply driver_get_some).
      segue ltac:(apply sleep_eq).
      segue ltac:(rewrite aguardar_elemento_eq; cbn [pagina]; rewrite Hcampo; reflexivity).
      segue ltac:(apply logging_com_log). reflexivity.
    - cbn. split; [done|]. split; [by rewrite <- !app_assoc|]. left. }
  destruct (selecionar_documento p (XPathId "sbmNovo")) as [|y ys] eqn:Hbotao.
  { eexists _, [_], _. split.
    - unfold realizar_busca. apply tentar_retorna.
      segue ltac:(apply logging_com_log).
      segue ltac:(by apply driver_get_some).
      segue ltac:(apply sleep_eq).
      segue ltac:(rewrite aguardar_elemento_eq; cbn [pagina]; rewrite Hcampo; reflexivity).
      segue ltac:(by apply clear_fresca).
      segue ltac:(by apply send_keys_fresca).
      segue ltac:(apply sleep_eq).
      segue ltac:(rewrite aguardar_elemento_eq; cbn [pagina]; rewrite Hbotao; reflexivity).
      segue ltac:(apply logging_com_log). reflexivity.
    - cbn. split; [done|]. split; [by rewrite <- !app_assoc|]. right. left. }
  destruct (submeter nome w1) as [[q|] w2] eqn:Hsub.
  - unfold realizar_busca. apply tentar_retorna.
    segue ltac:(apply logging_com_log).
    segue ltac:(by apply driver_get_some).
    segue ltac:(apply sleep_eq).
    segue ltac:(rewrite aguardar_elemento_eq; cbn [pagina]; rewrite Hcampo; reflexivity).
    segue ltac:(by apply clear_fresca).
    segue ltac:(by apply send_keys_fresca).
    segue ltac:(apply sleep_eq).
    segue ltac:(rewrite aguardar_elemento_eq; cbn [pagina]; rewrite Hbotao; reflexivity).
    segue ltac:(apply click_fresca_some; [done|exact Hsub]).
    segue ltac:(apply sleep_eq).
    segue ltac:(apply logging_com_log).
    unfold retornar, com_log. cbn. by rewrite <- app_assoc.
  - eexists _, [], _. split.
    + unfold realizar_busca.
      etrans; [eapply tentar_levanta; [|reflexivity]|reflexivity].
      segue ltac:(apply logging_com_log).
      segue ltac:(by apply driver_get_some).
      segue ltac:(apply sleep_eq).
      segue ltac:(rewrite aguardar_elemento_eq; cbn [pagina]; rewrite Hcampo; reflexivity).
      segue ltac:(by apply clear_fresca).
      segue ltac:(by apply send_keys_fresca).
      segue ltac:(apply sleep_eq).
      segue ltac:(rewrite aguardar_elemento_eq; cbn [pagina]; rewrite Hbotao; reflexivity).
      eapply ligar_levanta. apply click_fresca_none; [done|exact Hsub].
    + cbn. split; [done|]. split; [by rewrite <- !app_assoc|]. do 2 right. left.
Qed.


(** ** The rows, with their log *)

Lemma linha_da_busca_completa nome idx linha links cel st :
  fresca st linha ->
  linha_da_busca nome idx linha links cel st =
    (Retorna (links ++ links_por_igualdade nome [we_elem linha],
              match primeira "td" (we_elem linha) with
              | Some c => Some (MkWebElement (geracao st) c)
              | None => cel
              end),
     com_log st (avisos_das_linhas idx [we_elem linha])).
Proof.
  intros H. unfold linha_da_busca. unfold ligar at 1. unfold tentar at 1.
  unfold ligar at 1. rewrite find_element_fresca by done.
  cbn [links_por_igualdade avisos_das_linhas]. unfold ancora_da_linha, primeira.
  cbn [selecionar_elemento].
  destruct (List.filter (tem_tag "td") (descendentes (we_elem linha))) as [|c cs].
  - cbn. by rewrite app_nil_r.
  - cbn. unfold tentar. unfold ligar at 1.
    rewrite find_element_fresca by done. cbn.
    destruct (List.filter (tem_tag "a") (descendentes c)) as [|a ancoras].
    + cbn. by rewrite app_nil_r.
    + cbn. unfold ligar at 1. rewrite we_text_fresca by done. cbn.
      destruct (String.eqb (text a) nome).
      * cbn. unfold ligar. rewrite get_attribute_href_fresca by done. cbn.
        by rewrite com_log_nil.
      * cbn. by rewrite com_log_nil, app_nil_r.
Qed.

Lemma laco_linhas_completo nome linhas : forall idx links cel st,
  Forall (fresca st) linhas ->
  laco_linhas nome linhas idx links cel st =
    (Retorna (links ++ links_por_igualdade nome (map we_elem linhas),
              match ultima_celula (map we_elem linhas) with
              | Some c => Some (MkWebElement (geracao st) c)
              | None => cel
              end),
     com_log st (avisos_das_linhas idx (map we_elem linhas))).
Proof.
  induction linhas as [|x l IH]; intros idx links cel st H.
  - cbn. by rewrite app_nil_r, com_log_nil.
  - inversion H as [|? ? Hx Hl]; subst.
    cbn [laco_linhas]. unfold ligar.
    rewrite linha_da_busca_completa by done. cbn [fst snd].
    rewrite IH by done. rewrite com_log_app, <- app_assoc.
    cbn [map]. rewrite <- links_por_igualdade_cons.
    f_equal; [|f_equal].
    + f_equal. f_equal. unfold ultima_celula. cbn [omap list_omap].
      destruct (primeira "td" (we_elem x)) as [c|]; [|done].
      cbn. rewrite last_cons. by destruct (last _).
    + cbn [avisos_das_linhas]. by rewrite app_nil_r.
Qed.

Lemma localizar_links_eq nome tabela st :
  fresca st tabela ->
  localizar_links nome tabela st =
    (Retorna (links_por_igualdade nome (linhas_da_tabela (we_elem tabela)),
              match ultima_celula (linhas_da_tabela (we_elem tabela)) with
              | Some c => Some (MkWebElement (geracao st) c)
              | None => None
              end),
     com_log st (InfoLinhasEncontradas (length (linhas_da_tabela (we_elem tabela)))
                 :: avisos_das_linhas 1 (linhas_da_tabela (we_elem tabela)))).
Proof.
  intros H. unfold localizar_links. unfold ligar at 1.
  rewrite find_elements_fresca by done.
  unfold ligar at 1. rewrite logging_com_log. unfold ligar.
  rewrite laco_linhas_completo by exact (referencias_frescas st _).
  rewrite we_elem_referencias, com_log_app.
  unfold referencias. rewrite length_map. reflexivity.
Qed.

(** The rows of a results table, lines 274-294, with everything they leave
    behind: the links, the log (the number of rows, then one line per row
    without a cell and one warning, with the row's position counted from 1,
    per row whose cell has no anchor) and [celulas], the cell of the last
    row that has one.  A row that fails never stops the rows after it. *)
Theorem localizar_links_completo (nome : string) (tabela : WebElement) (st : estado) :
  fresca st tabela ->
  let linhas := linhas_da_tabela (we_elem tabela) in
  localizar_links nome tabela st =
    (Retorna (links_por_igualdade nome linhas,
              match ultima_celula linhas with
              | Some c => Some (MkWebElement (geracao st) c)
              | None => None
              end),
     com_log st (InfoLinhasEncontradas (length linhas) :: avisos_das_linhas 1 linhas)).
Proof. intros H linhas. by apply localizar_links_eq. Qed.

(** ** The extraction as a whole *)

(** [extrair_dados_processos] always returns a list: no exception leaves the
    method, whatever the page and the portal do.  It never writes the store,
    and it only adds lines to the log. *)
Theorem extrair_dados_processos_contido (nome : string) (st : estado) :
  exists ps st' lg,
    extrair_dados_processos nome st = (Retorna ps, st') /\
    resultados st' = resultados st /\
    log st' = log st ++ lg.
Proof.
  destruct (nunca_levanta_extrair_dados_processos nome st) as [ps Hps].
  destruct (quieto_extrair_dados_processos nome st) as [Hr (lg & Hl & _)].
  destruct (extrair_dados_processos nome st) as [r st'] eqn:E. simpl in *. subst r.
  by exists ps, st', lg.
Qed.

Lemma localizar_links_fresca nome tabela st :
  fresca st tabela ->
  exists cel lg,
    localizar_links nome tabela st =
      (Retorna (links_por_igualdade nome (linhas_da_tabela (we_elem tabela)), cel),
       com_log st lg).
Proof.
  intros H. unfold localizar_links. unfold ligar at 1.
  rewrite find_elements_fresca by done.
  unfold ligar at 1. rewrite logging_com_log. unfold ligar.
  set (linhas := referencias (geracao st)
                   (selecionar_elemento (pagina st) (we_elem tabela) (TagName "tr"))).
  destruct (laco_linhas_frescas nome linhas 1 [] None
              (com_log st [InfoLinhasEncontradas (length linhas)]))
    as (c & lg & E); [exact (referencias_frescas st _)|].
  exists c, (InfoLinhasEncontradas (length linhas) :: lg).
  rewrite E, com_log_app. unfold linhas. by rewrite we_elem_referencias.
Qed.

(** The method on a page that has a results table and no "no results" label:
    the links are located, the loop over them runs, and the last log line
    tells how the loop ended. *)
Lemma extrair_dados_processos_tabela nome st t ts :
  filhos_de_id "divInfraAreaTabela" "label" (pagina st) = [] ->
  filhos_de_id "divInfraAreaTabela" "table" (pagina st) = t :: ts ->
  exists cel lg,
    (forall c, cel = Some c -> we_geracao c = geracao st) /\
    extrair_dados_processos nome st =
      match laco_links nome (links_por_igualdade nome (linhas_da_tabela t)) 1
                       (length (links_por_igualdade nome (linhas_da_tabela t)))
                       (MkWebElement (geracao st) t) cel [] (com_log st lg) with
      | (Retorna (ps, None), st2) =>
          (Retorna ps, com_log st2 [InfoTotalExtraidos (length ps) nome])
      | (Retorna (ps, Some e), st2) => (Retorna ps, com_log st2 [ErroExtrairDados e])
      | (Levanta e, st2) => (Retorna [], com_log st2 [ErroExtrairDados e])
      end.
Proof.
  intros Hlabel Htable.
  pose proof (localizar_links_eq nome (MkWebElement (geracao st) t) st eq_refl) as Eloc.
  cbn [we_elem] in Eloc.
  exists (match ultima_celula (linhas_da_tabela t) with
          | Some c => Some (MkWebElement (geracao st) c)
          | None => None
          end),
         (InfoLinhasEncontradas (length (linhas_da_tabela t))
          :: avisos_das_linhas 1 (linhas_da_tabela t)).
  split.
  { intros c Hc. destruct (ultima_celula (linhas_da_tabela t)); [|discriminate Hc].
    by injection Hc as <-. }
  set (links := links_por_igualdade nome (linhas_da_tabela t)) in *.
  unfold extrair_dados_processos. unfold tentar at 1.
  segue ltac:(apply sleep_eq).
  segue ltac:(etrans;
              [eapply tentar_levanta;
               [eapply ligar_levanta; rewrite driver_find_element_eq;
                cbn [selecionar_documento]; rewrite Hlabel; reflexivity
               |reflexivity]
              |reflexivity]).
  segue ltac:(apply tentar_retorna; etrans;
              [eapply ligar_retorna; rewrite driver_find_element_eq;
               cbn [selecionar_documento]; rewrite Htable; reflexivity
              |reflexivity]).
  segue ltac:(exact Eloc).
  cbn [fst snd]. unfold ligar at 1.
  destruct (laco_links nome links 1 (length links) (MkWebElement (geracao st) t) _ []
                       (com_log st _)) as [[[ps [e|]]|e] st2]; reflexivity.
Qed.

(** How the loop over the links counts: it only appends to [processos]; it
    appends one record per link when no link raises, and fewer records than
    links when one does. *)
Lemma laco_links_conta nome links : forall i n tabela cel ps st,
  exists novos pend st',
    laco_links nome links i n tabela cel ps st = (Retorna (ps ++ novos, pend), st') /\
    (pend = None -> length novos = length links) /\
    (pend <> None -> length novos < length links).
Proof.
  induction links as [|x l IH]; intros i n tabela cel ps st.
  - exists [], None, st. rewrite app_nil_r. repeat split; done.
  - destruct (extrair_link nome i n x tabela cel st) as [[[[info t] c]|e] st1] eqn:E.
    + rewrite (laco_links_segue _ _ _ _ _ _ _ _ _ _ _ _ _ E).
      destruct (IH (S i) n t c (ps ++ [info]) st1) as (novos & pend & st' & E' & H1 & H2).
      exists (info :: novos), pend, st'. rewrite E', <- app_assoc.
      split; [done|]. simpl. split; intros H; [by rewrite H1|].
      specialize (H2 H). lia.
    + rewrite (laco_links_interrompe _ _ _ _ _ _ _ _ _ _ _ E).
      exists [], (Some e), st1. rewrite app_nil_r.
      split; [done|]. split; [done|]. intros _. simpl. lia.
Qed.

(** On a results page without the "no results" label and without a table,
    the method returns the empty list after logging a warning; the browser
    stays where it is. *)
Theorem extrair_sem_tabela_lista_vazia (nome : string) (st : estado) :
  filhos_de_id "divInfraAreaTabela" "label" (pagina st) = [] ->
  filhos_de_id "divInfraAreaTabela" "table" (pagina st) = [] ->
  extrair_dados_processos nome st = (Retorna [], com_log st [WarnTabelaNomes nome]).
Proof.
  intros Hlabel Htable. unfold extrair_dados_processos. apply tentar_retorna.
  segue ltac:(apply sleep_eq).
  segue ltac:(etrans;
              [eapply tentar_levanta;
               [eapply ligar_levanta; rewrite driver_find_element_eq;
                cbn [selecionar_documento]; rewrite Hlabel; reflexivity
               |reflexivity]
              |reflexivity]).
  segue ltac:(etrans;
              [eapply tentar_levanta;
               [eapply ligar_levanta; rewrite driver_find_element_eq;
                cbn [selecionar_documento]; rewrite Htable; reflexivity
               |reflexivity]
              |reflexivity]).
  reflexivity.
Qed.

(** On a page with a results table, the number of records returned never
    exceeds the number of rows whose anchor carries the name.  The log ends
    with the total line, giving the length of the returned list, exactly
    when every such row gave a record; otherwise it ends with the error line
    and fewer records than rows are returned. *)
Theorem extrair_total_ou_erro (nome : string) (st : estado) (t : elemento)
    (ts : list elemento) :
  filhos_de_id "divInfraAreaTabela" "label" (pagina st) = [] ->
  filhos_de_id "divInfraAreaTabela" "table" (pagina st) = t :: ts ->
  exists ps st' lg fim,
    extrair_dados_processos nome st = (Retorna ps, st') /\
    log st' = log st ++ lg ++ [fim] /\
    length ps <= length (links_por_igualdade nome (linhas_da_tabela t)) /\
    ((fim = InfoTotalExtraidos (length ps) nome /\
      length ps = length (links_por_igualdade nome (linhas_da_tabela t))) \/
     (exists e, fim = ErroExtrairDados e /\
      length ps < length (links_por_igualdade nome (linhas_da_tabela t)))).
Proof.
  intros Hlabel Htable.
  destruct (extrair_dados_processos_tabela nome st t ts Hlabel Htable)
    as (cel & lg1 & _ & E).
  set (links := links_por_igualdade nome (linhas_da_tabela t)) in *.
  destruct (laco_links_conta nome links 1 (length links)
              (MkWebElement (geracao st) t) cel [] (com_log st lg1))
    as (novos & pend & st2 & E2 & Hnone & Hsome).
  pose proof (quieto_laco_links nome links 1 (length links)
                (MkWebElement (geracao st) t) cel [] (com_log st lg1))
    as [_ (lg2 & Hl2 & _)].
  rewrite E2 in E, Hl2. simpl in Hl2. simpl in E.
  destruct pend as [e|].
  - exists novos, (com_log st2 [ErroExtrairDados e]), (lg1 ++ lg2), (ErroExtrairDados e).
    split; [done|]. split; [simpl; by rewrite Hl2, <- !app_assoc|].
    assert (length novos < length links) by (by apply Hsome).
    split; [lia|]. right. by exists e.
  - exists novos, (com_log st2 [InfoTotalExtraidos (length novos) nome]),
           (lg1 ++ lg2), (InfoTotalExtraidos (length novos) nome).
    split; [done|]. split; [simpl; by rewrite Hl2, <- !app_assoc|].
    assert (length novos = length links) by (by apply Hnone).
    split; [lia|]. by left.
Qed.

(** When no row of the table carries the name, the method returns the empty
    list and the browser does not navigate: it is left on the results page,
    with only log lines added, the last one reporting a total of 0. *)
Theorem extrair_sem_linha_igual (nome : string) (st : estado) (t : elemento)
    (ts : list elemento) :
  filhos_de_id "divInfraAreaTabela" "label" (pagina st) = [] ->
  filhos_de_id "divInfraAreaTabela" "table" (pagina st) = t :: ts ->
  links_por_igualdade nome (linhas_da_tabela t) = [] ->
  exists lg,
    extrair_dados_processos nome st =
      (Retorna [], com_log st (lg ++ [InfoTotalExtraidos 0 nome])).
Proof.
  intros Hlabel Htable Hlinks.
  destruct (extrair_dados_processos_tabela nome st t ts Hlabel Htable)
    as (cel & lg1 & _ & E).
  rewrite Hlinks in E. simpl in E.
  exists lg1. rewrite E. by rewrite com_log_app.
Qed.

(** ** One link *)

(** The loop of lines 309-315 on the rows of the current page: [celulas] ends
    as the cell of the last row that has one, and keeps its old value when no
    row has a cell. *)
Lemma laco_celulas_frescas linhas : forall cel st,
  Forall (fresca st) linhas ->
  exists lg,
    laco_celulas linhas cel st =
      (Retorna (match ultima_celula (map we_elem linhas) with
                | Some c => Some (MkWebElement (geracao st) c)
                | None => cel
                end),
       com_log st lg).
Proof.
  induction linhas as [|x l IH]; intros cel st H.
  - exists []. by rewrite com_log_nil.
  - inversion H as [|? ? Hx Hl]; subst.
    cbn [laco_celulas map]. unfold ultima_celula. cbn [omap list_omap].
    unfold primeira at 1.
    pose proof (find_element_fresca x (TagName "td") st Hx) as Hfe.
    cbn [selecionar_elemento] in Hfe.
    destruct (List.filter (tem_tag "td") (descendentes (we_elem x))) as [|c cs].
    + destruct (IH cel (com_log st [InfoPulandoCabecario])) as [lg E]; [done|].
      exists (InfoPulandoCabecario :: lg).
      segue ltac:(etrans;
                  [eapply tentar_levanta; [eapply ligar_levanta; exact Hfe|reflexivity]
                  |reflexivity]).
      etrans; [exact E|]. by rewrite com_log_app.
    + destruct (IH (Some (MkWebElement (geracao st) c)) st) as [lg E]; [done|].
      exists lg.
      segue ltac:(apply tentar_retorna; etrans;
                  [eapply ligar_retorna; exact Hfe|reflexivity]).
      etrans; [exact E|]. cbn [head]. rewrite last_cons.
      fold (ultima_celula (map we_elem l)).
      by destruct (ultima_celula (map we_elem l)).
Qed.

Lemma extrair_link_sem_tabela_eq (nome : string) (i n : nat) (link : string)
    (tabela : WebElement) (cel : option WebElement) (st : estado)
    (p : elemento) (w : Mundo) :
  we_geracao tabela <= geracao st ->
  navegar link (mundo st) = (Some p, w) ->
  filhos_de_id "divInfraAreaTabela" "table" p = [] ->
  extrair_link nome i n (Some link) tabela cel st =
    (Levanta StaleElementReferenceException,
     MkEstado w (S (geracao st)) p "" (resultados st)
              (log st ++ [InfoEntrandoLink i n; WarnTabelaProcessos nome])).
Proof.
  intros Hg Hnav Htable. unfold extrair_link.
  segue ltac:(apply logging_com_log).
  segue ltac:(by apply driver_get_some).
  segue ltac:(apply sleep_eq).
  segue ltac:(etrans;
              [eapply tentar_levanta;
               [rewrite driver_find_element_eq; cbn [selecionar_documento pagina];
                rewrite Htable; reflexivity
               |reflexivity]
              |reflexivity]).
  eapply ligar_levanta. unfold find_elements, vigente. cbn [geracao com_log].
  assert (Hne : Nat.eqb (we_geracao tabela) (S (geracao st)) = false)
    by (apply Nat.eqb_neq; lia).
  rewrite Hne. unfold com_log. cbn. by rewrite <- app_assoc.
Qed.

(** When the page behind a link has no results table, line 305 logs a
    warning and the method goes on with the table of the page it has left:
    the turn ends with [StaleElementReferenceException], on the page of the
    link, with no case opened. *)
Theorem extrair_link_sem_tabela (nome : string) (i n : nat) (link : string)
    (tabela : WebElement) (cel : option WebElement) (st : estado)
    (p : elemento) (w : Mundo) :
  we_geracao tabela <= geracao st ->
  navegar link (mundo st) = (Some p, w) ->
  filhos_de_id "divInfraAreaTabela" "table" p = [] ->
  extrair_link nome i n (Some link) tabela cel st =
    (Levanta StaleElementReferenceException,
     MkEstado w (S (geracao st)) p "" (resultados st)
              (log st ++ [InfoEntrandoLink i n; WarnTabelaProcessos nome])).
Proof. apply extrair_link_sem_tabela_eq. Qed.

(** One link on its success path: the link's page has a results table, and
    the case opened is the one behind the first anchor of the inner cell of
    the last row that has a cell; earlier rows are not opened.  The record
    is the one the summary container of that case gives, and the turn hands
    the table and the cell on to the next turn. *)
Theorem extrair_link_ultima_linha (nome : string) (i n : nat) (link : string)
    (tabela : WebElement) (cel : option WebElement) (st : estado)
    (p : elemento) (w : Mundo) (t : elemento) (ts : list elemento)
    (c a : elemento) (u : string) (d : elemento) (w' : Mundo)
    (capa : elemento) (resto : list elemento) :
  navegar link (mundo st) = (Some p, w) ->
  filhos_de_id "divInfraAreaTabela" "table" p = t :: ts ->
  ultima_celula (linhas_da_tabela t) = Some c ->
  primeira "a" c = Some a ->
  href a = Some u ->
  navegar u w = (Some d, w') ->
  selecionar_documento d (XPathId "fldAssuntos") = capa :: resto ->
  exists lg,
    extrair_link nome i n (Some link) tabela cel st =
      (Retorna (registro_dos_blocos (blocos capa),
                MkWebElement (S (geracao st)) t,
                Some (MkWebElement (S (geracao st)) c)),
       MkEstado w' (S (S (geracao st))) d "" (resultados st) (log st ++ lg)).
Proof.
  intros Hnav Htable Hult Hanc Hhref Hnav2 Hcapa.
  set (st1 := MkEstado w (S (geracao st)) p "" (resultados st)
                       (log st ++ [InfoEntrandoLink i n])).
  set (tab := MkWebElement (S (geracao st)) t).
  destruct (laco_celulas_frescas
              (referencias (S (geracao st)) (linhas_da_tabela t)) cel st1)
    as [lg1 E1]; [exact (referencias_frescas st1 _)|].
  rewrite we_elem_referencias, Hult in E1.
  set (st2 := MkEstado w' (S (S (geracao st))) d "" (resultados st)
                       (log st1 ++ lg1)).
  destruct (extrair_capa_eq st2 capa resto Hcapa) as [lg2 E2].
  exists ([InfoEntrandoLink i n] ++ lg1 ++ lg2).
  unfold extrair_link.
  segue ltac:(apply logging_com_log).
  segue ltac:(by apply driver_get_some).
  segue ltac:(apply sleep_eq).
  segue ltac:(apply tentar_retorna; rewrite driver_find_element_eq;
              cbn [selecionar_documento pagina]; rewrite Htable; reflexivity).
  segue ltac:(rewrite find_elements_fresca by done; reflexivity).
  segue ltac:(exact E1).
  segue ltac:(rewrite find_element_fresca by done;
              cbn [we_elem selecionar_elemento];
              unfold primeira in Hanc;
              destruct (List.filter (tem_tag "a") (descendentes c)) as [|a' l'];
              [discriminate Hanc|]; cbn in Hanc; injection Hanc as ->; reflexivity).
  segue ltac:(by apply get_attribute_href_fresca).
  cbn [we_elem]. rewrite Hhref.
  segue ltac:(by apply driver_get_some).
  segue ltac:(apply sleep_eq).
  segue ltac:(exact E2).
  unfold retornar, com_log, st2, st1. cbn. by rewrite <- !app_assoc.
Qed.

(** ** The links, up to the first failure *)

Lemma extrair_link_com_tabela nome i n l tabela cel st p w1 t ts :
  navegar l (mundo st) = (Some p, w1) ->
  filhos_de_id "divInfraAreaTabela" "table" p = t :: ts ->
  exists lg,
    extrair_link nome i n (Some l) tabela cel st =
      match ultima_celula (linhas_da_tabela t) with
      | Some c =>
          abrir_caso (MkWebElement (S (geracao st)) c) (MkWebElement (S (geracao st)) t)
            (MkEstado w1 (S (geracao st)) p "" (resultados st) (log st ++ lg))
      | None =>
          match cel with
          | None =>
              (Levanta UnboundLocalError,
               MkEstado w1 (S (geracao st)) p "" (resultados st) (log st ++ lg))
          | Some c =>
              abrir_caso c (MkWebElement (S (geracao st)) t)
                (MkEstado w1 (S (geracao st)) p "" (resultados st) (log st ++ lg))
          end
      end.
Proof.
  intros Hnav Htable.
  set (st1 := MkEstado w1 (S (geracao st)) p "" (resultados st)
                       (log st ++ [InfoEntrandoLink i n])).
  destruct (laco_celulas_frescas
              (referencias (S (geracao st)) (linhas_da_tabela t)) cel st1)
    as [lg1 E1]; [exact (referencias_frescas st1 _)|].
  rewrite we_elem_referencias in E1.
  exists ([InfoEntrandoLink i n] ++ lg1).
  unfold extrair_link.
  segue ltac:(apply logging_com_log).
  segue ltac:(by apply driver_get_some).
  segue ltac:(apply sleep_eq).
  segue ltac:(apply tentar_retorna; rewrite driver_find_element_eq;
              cbn [selecionar_documento pagina]; rewrite Htable; reflexivity).
  segue ltac:(rewrite find_elements_fresca by done; reflexivity).
  segue ltac:(exact E1).
  unfold com_log, st1. cbn [mundo geracao pagina campo resultados log].
  rewrite <- app_assoc.
  destruct (ultima_celula (linhas_da_tabela t)); [reflexivity|].
  destruct cel; reflexivity.
Qed.

Lemma abrir_caso_velha c tab st :
  we_geracao c <> geracao st ->
  abrir_caso c tab st = (Levanta StaleElementReferenceException, st).
Proof.
  intros H. unfold abrir_caso. eapply ligar_levanta.
  unfold find_element. eapply ligar_levanta. unfold find_elements, vigente.
  apply Nat.eqb_neq in H. by rewrite H.
Qed.

Lemma abrir_caso_fresca c tab st :
  fresca st c ->
  match primeira "a" (we_elem c) with
  | None => exists e, abrir_caso c tab st = (Levanta e, st)
  | Some a =>
      match href a with
      | None => exists e, abrir_caso c tab st = (Levanta e, st)
      | Some u =>
          match navegar u (mundo st) with
          | (None, w2) => exists e st', abrir_caso c tab st = (Levanta e, st')
          | (Some d, w2) =>
              match selecionar_documento d (XPathId "fldAssuntos") with
              | [] => exists e st', abrir_caso c tab st = (Levanta e, st')
              | capa :: _ =>
                  exists lg,
                    abrir_caso c tab st =
                      (Retorna (registro_dos_blocos (blocos capa), tab, Some c),
                       MkEstado w2 (S (geracao st)) d "" (resultados st) (log st ++ lg))
              end
          end
      end
  end.
Proof.
  intros H.
  pose proof (find_element_fresca c (TagName "a") st H) as Hfe.
  cbn [selecionar_elemento] in Hfe. unfold primeira.
  destruct (List.filter (tem_tag "a") (descendentes (we_elem c))) as [|a l].
  { cbn [head]. eexists. unfold abrir_caso. eapply ligar_levanta. exact Hfe. }
  cbn [head].
  destruct (href a) as [u|] eqn:Hhref.
  2:{ eexists. unfold abrir_caso.
      segue ltac:(exact Hfe).
      segue ltac:(by apply get_attribute_href_fresca).
      cbn [we_elem]. rewrite Hhref. eapply ligar_levanta. reflexivity. }
  destruct (navegar u (mundo st)) as [[d|] w2] eqn:Hnav.
  2:{ eexists _, _. unfold abrir_caso.
      segue ltac:(exact Hfe).
      segue ltac:(by apply get_attribute_href_fresca).
      cbn [we_elem]. rewrite Hhref. eapply ligar_levanta. by apply driver_get_none. }
  set (st2 := MkEstado w2 (S (geracao st)) d "" (resultados st) (log st)).
  destruct (selecionar_documento d (XPathId "fldAssuntos")) as [|capa resto] eqn:Hcapa.
  - eexists _, _. unfold abrir_caso.
    segue ltac:(exact Hfe).
    segue ltac:(by apply get_attribute_href_fresca).
    cbn [we_elem]. rewrite Hhref.
    segue ltac:(by apply driver_get_some).
    segue ltac:(apply sleep_eq).
    eapply ligar_levanta. unfold extrair_capa. eapply ligar_levanta.
    rewrite driver_find_element_eq. cbn [pagina]. rewrite Hcapa. reflexivity.
  - destruct (extrair_capa_eq st2 capa resto Hcapa) as [lg E].
    exists lg. unfold abrir_caso.
    segue ltac:(exact Hfe).
    segue ltac:(by apply get_attribute_href_fresca).
    cbn [we_elem]. rewrite Hhref.
    segue ltac:(by apply driver_get_some).
    segue ltac:(apply sleep_eq).
    segue ltac:(exact E).
    reflexivity.
Qed.

(** One turn of the loop over the links, in full: it returns the record of
    the link when nothing fails, and raises otherwise.  [tabela] and
    [celulas] come from pages the browser has been on. *)
Lemma extrair_link_caso nome i n link tabela cel st :
  we_geracao tabela <= geracao st ->
  (forall c, cel = Some c -> we_geracao c <= geracao st) ->
  match registro_do_link link (mundo st) with
  | Some (info, w') =>
      exists tab' c' st',
        extrair_link nome i n link tabela cel st = (Retorna (info, tab', Some c'), st') /\
        mundo st' = w' /\
        we_geracao tab' <= geracao st' /\
        we_geracao c' <= geracao st'
  | None => exists e st', extrair_link nome i n link tabela cel st = (Levanta e, st')
  end.
Proof.
  intros Htab Hcel. unfold registro_do_link.
  destruct link as [l|].
  2:{ eexists _, _. unfold extrair_link.
      segue ltac:(apply logging_com_log). eapply ligar_levanta. reflexivity. }
  destruct (navegar l (mundo st)) as [[p|] w1] eqn:Hnav.
  2:{ eexists _, _. unfold extrair_link.
      segue ltac:(apply logging_com_log). eapply ligar_levanta.
      by apply driver_get_none. }
  destruct (filhos_de_id "divInfraAreaTabela" "table" p) as [|t ts] eqn:Htable.
  { eexists _, _. by apply extrair_link_sem_tabela_eq. }
  destruct (extrair_link_com_tabela nome i n l tabela cel st p w1 t ts Hnav Htable)
    as [lg E].
  rewrite E. clear E.
  set (st1 := MkEstado w1 (S (geracao st)) p "" (resultados st) (log st ++ lg)).
  destruct (ultima_celula (linhas_da_tabela t)) as [c|].
  - pose proof (abrir_caso_fresca (MkWebElement (S (geracao st)) c)
                  (MkWebElement (S (geracao st)) t) st1 eq_refl) as H.
    unfold st1 in H. cbn [we_elem mundo] in H.
    destruct (primeira "a" c) as [a|]; [|destruct H as [e H]; by eexists _, _].
    destruct (href a) as [u|]; [|destruct H as [e H]; by eexists _, _].
    destruct (navegar u w1) as [[d|] w2]; [|destruct H as (e & st' & H); by eexists _, _].
    destruct (selecionar_documento d (XPathId "fldAssuntos")) as [|capa resto];
      [destruct H as (e & st' & H); by eexists _, _|].
    destruct H as [lg2 H]. eexists _, _, _. split; [exact H|].
    cbn. split; [done|]. split; lia.
  - destruct cel as [c|]; [|by eexists _, _].
    eexists _, _. apply abrir_caso_velha.
    specialize (Hcel c eq_refl). cbn. lia.
Qed.

Lemma laco_links_registros nome links : forall i n tabela cel ps st,
  we_geracao tabela <= geracao st ->
  (forall c, cel = Some c -> we_geracao c <= geracao st) ->
  exists pend st',
    laco_links nome links i n tabela cel ps st =
      (Retorna (ps ++ registros_dos_links links (mundo st), pend), st').
Proof.
  induction links as [|x l IH]; intros i n tabela cel ps st Htab Hcel.
  - exists None, st. cbn. by rewrite app_nil_r.
  - pose proof (extrair_link_caso nome i n x tabela cel st Htab Hcel) as H.
    cbn [registros_dos_links].
    destruct (registro_do_link x (mundo st)) as [[info w']|].
    + destruct H as (tab' & c' & st' & E & Hw & Ht & Hc).
      rewrite (laco_links_segue _ _ _ _ _ _ _ _ _ _ _ _ _ E).
      destruct (IH (S i) n tab' (Some c') (ps ++ [info]) st' Ht) as (pend & st'' & E').
      { intros c0 Hc0. by injection Hc0 as <-. }
      exists pend, st''. rewrite E', Hw, <- app_assoc. reflexivity.
    + destruct H as (e & st' & E).
      rewrite (laco_links_interrompe _ _ _ _ _ _ _ _ _ _ _ E).
      exists (Some e), st'. by rewrite app_nil_r.
Qed.

(** On a page with a results table, the method returns exactly the records
    of the rows that carry the name, in row order, up to the first row whose
    link fails: the record of a link is the summary of the case behind the
    last row of the link's page, and a link fails when its page, its table,
    that row's anchor, the case page or its summary container is missing.
    The rows after a failed one give nothing. *)
Theorem extrair_ate_a_primeira_falha (nome : string) (st : estado) (t : elemento)
    (ts : list elemento) :
  filhos_de_id "divInfraAreaTabela" "label" (pagina st) = [] ->
  filhos_de_id "divInfraAreaTabela" "table" (pagina st) = t :: ts ->
  exists st',
    extrair_dados_processos nome st =
      (Retorna (registros_dos_links (links_por_igualdade nome (linhas_da_tabela t))
                                    (mundo st)),
       st').
Proof.
  intros Hlabel Htable.
  destruct (extrair_dados_processos_tabela nome st t ts Hlabel Htable)
    as (cel & lg1 & Hcel & E).
  set (links := links_por_igualdade nome (linhas_da_tabela t)) in *.
  destruct (laco_links_registros nome links 1 (length links)
              (MkWebElement (geracao st) t) cel [] (com_log st lg1))
    as (pend & st2 & E2).
  { cbn. lia. }
  { intros c Hc. rewrite (Hcel c Hc). cbn. lia. }
  rewrite E2 in E. cbn [app mundo com_log] in E.
  destruct pend as [e|]; eexists; exact E.
Qed.

(** ** The summary container *)

Lemma par_do_bloco_snoc l e : par_do_bloco (l ++ [e]) = ver (par_do_bloco l) e.
Proof. unfold par_do_bloco. by rewrite fold_left_app. Qed.

(** The pending pair of a block comes from the block: the name is empty or
    the text of one of its labels, the value is empty or the text of one of
    its spans. *)
Lemma par_do_bloco_origem l :
  (fst (par_do_bloco l) = "" \/
   exists e, e ∈ l /\ tag_name e = "label" /\ text e = fst (par_do_bloco l)) /\
  (snd (par_do_bloco l) = "" \/
   exists e, e ∈ l /\ tag_name e = "span" /\ text e = snd (par_do_bloco l)).
Proof.
  induction l as [|e l [IH1 IH2]] using rev_ind.
  - split; by left.
  - rewrite par_do_bloco_snoc.
    assert (Hmais : forall P : elemento -> Prop,
              (exists x, x ∈ l /\ P x) -> exists x, x ∈ l ++ [e] /\ P x).
    { intros P (x & Hx & HP). exists x. split; [|done]. apply elem_of_app. by left. }
    assert (He : e ∈ l ++ [e]) by (apply elem_of_app; right; left).
    unfold ver, classificar.
    destruct (String.eqb (tag_name e) "label") eqn:El.
    + apply String.eqb_eq in El. cbn. split.
      * right. by exists e.
      * destruct IH2 as [H|H]; [by left|right]. by apply Hmais in H.
    + destruct (String.eqb (tag_name e) "span") eqn:Es.
      * apply String.eqb_eq in Es. cbn. split.
        -- destruct IH1 as [H|H]; [by left|right]. by apply Hmais in H.
        -- right. by exists e.
      * split.
        -- destruct IH1 as [H|H]; [by left|right]. by apply Hmais in H.
        -- destruct IH2 as [H|H]; [by left|right]. by apply Hmais in H.
Qed.

Lemma fold_comprometer_origem divs : forall (m : registro) k v,
  fold_left comprometer divs m !! k = Some v ->
  m !! k = Some v \/
  exists d, d ∈ divs /\ par_do_bloco (descendentes d) = (k, v).
Proof.
  induction divs as [|d l IH]; intros m k v H; [by left|].
  cbn [fold_left] in H. apply IH in H as [H|(d' & Hd' & Hp)].
  - unfold comprometer in H. apply lookup_insert_Some in H as [[Hk Hv]|[_ H]].
    + right. exists d. split; [left|]. rewrite <- Hk, <- Hv.
      by destruct (par_do_bloco (descendentes d)).
    + by left.
  - right. exists d'. split; [by right|done].
Qed.

Lemma fold_comprometer_tamanho divs : forall (m : registro),
  size (fold_left comprometer divs m) <= size m + length divs.
Proof.
  induction divs as [|d l IH]; intros m; [simpl; lia|].
  cbn [fold_left length]. etrans; [apply IH|].
  unfold comprometer. rewrite map_size_insert.
  destruct (m !! _); simpl; lia.
Qed.

(** The extractor on the page the browser is on.  Without the summary
    container it raises [NoSuchElementException] and changes nothing.  With
    it, the record has at most one field per block, and every field comes
    from one block: its name is the text of a label of that block or the
    empty string, its value the text of a span of that block or the empty
    string. *)
Theorem extrair_capa_nada_inventa (st : estado) :
  match selecionar_documento (pagina st) (XPathId "fldAssuntos") with
  | [] => extrair_capa st = (Levanta NoSuchElementException, st)
  | capa :: _ =>
      exists info lg,
        extrair_capa st = (Retorna info, com_log st lg) /\
        size info <= length (blocos capa) /\
        forall k v, info !! k = Some v ->
          exists d, d ∈ blocos capa /\
            (k = "" \/ exists e, e ∈ com_tag "label" d /\ text e = k) /\
            (v = "" \/ exists e, e ∈ com_tag "span" d /\ text e = v)
  end.
Proof.
  destruct (selecionar_documento (pagina st) (XPathId "fldAssuntos"))
    as [|capa resto] eqn:H.
  - unfold extrair_capa. eapply ligar_levanta.
    rewrite driver_find_element_eq. by rewrite H.
  - destruct (extrair_capa_eq st capa resto H) as [lg E].
    exists (registro_dos_blocos (blocos capa)), lg. split; [done|].
    split.
    + unfold registro_dos_blocos. etrans; [apply fold_comprometer_tamanho|].
      rewrite map_size_empty. lia.
    + intros k v Hkv. unfold registro_dos_blocos in Hkv.
      apply fold_comprometer_origem in Hkv as [Hkv|(d & Hd & Hp)];
        [by rewrite lookup_empty in Hkv|].
      exists d. split; [done|].
      destruct (par_do_bloco_origem (descendentes d)) as [Hk Hv].
      rewrite Hp in Hk, Hv. cbn in Hk, Hv. unfold com_tag. split.
      * destruct Hk as [Hk|(e & He & Ht & Hx)]; [by left|right].
        exists e. split; [|done]. apply list_elem_of_In, filter_In.
        split; [by apply list_elem_of_In|]. unfold tem_tag. by apply String.eqb_eq.
      * destruct Hv as [Hv|(e & He & Ht & Hx)]; [by left|right].
        exists e. split; [|done]. apply list_elem_of_In, filter_In.
        split; [by apply list_elem_of_In|]. unfold tem_tag. by apply String.eqb_eq.
Qed.

(** ** One name, all the names: the store *)

(** [processar_nome] always returns, and it writes the store under the name
    it is given only: what any other name holds is left as it was. *)
Theorem processar_nome_so_o_nome (nome k : string) (st : estado) :
  k <> nome ->
  (exists ps, fst (processar_nome nome st) = Retorna ps) /\
  resultados (snd (processar_nome nome st)) !! k = resultados st !! k.
Proof.
  intros Hk.
  destruct (processar_nome_passo nome st) as (ps & st' & lg & E & _ & _ & _ & Hr).
  rewrite E. cbn [fst snd]. split; [by exists ps|].
  destruct Hr as [Hr|[Hr _]]; rewrite Hr; [by rewrite lookup_insert_ne|done].
Qed.

Lemma laco_nomes_quadro nomes : forall idx total st,
  exists st',
    laco_nomes processar_nome nomes idx total st = (Retorna tt, st') /\
    (forall k, k ∉ nomes -> resultados st' !! k = resultados st !! k) /\
    (forall k, is_Some (resultados st !! k) -> is_Some (resultados st' !! k)) /\
    size (resultados st') <= size (resultados st) + length nomes.
Proof.
  induction nomes as [|m l IH]; intros idx total st.
  - exists st. split; [done|]. split; [done|]. split; [done|]. simpl; lia.
  - destruct (apos_turno_processar_nome idx total m st)
      as (ps & lg1 & _ & _ & _ & _ & Hr1).
    destruct (IH (S idx) total (apos_turno processar_nome idx total m st))
      as (st' & E & Hfora & Hmono & Htam).
    set (st1 := apos_turno processar_nome idx total m st) in *.
    exists st'. rewrite laco_nomes_cons. split; [done|]. split; [|split].
    + intros k Hk. apply not_elem_of_cons in Hk as [Hkm Hkl].
      rewrite Hfora by done.
      destruct Hr1 as [Hr1|[Hr1 _]]; rewrite Hr1; [by rewrite lookup_insert_ne|done].
    + intros k Hk. apply Hmono.
      destruct Hr1 as [Hr1|[Hr1 _]]; rewrite Hr1; [|done].
      apply lookup_insert_is_Some. destruct (decide (m = k)); [by left|by right].
    + etrans; [exact Htam|]. cbn [length].
      destruct Hr1 as [Hr1|[Hr1 _]]; rewrite Hr1; [|lia].
      rewrite map_size_insert. destruct (resultados st !! m); simpl; lia.
Qed.

Lemma processar_todos_nomes_eq nomes st :
  exists st1,
    laco_nomes processar_nome nomes 1 (length nomes)
      (com_log st [InfoIniciandoNomes (length nomes)]) = (Retorna tt, st1) /\
    processar_todos_nomes nomes st =
      (Retorna tt, com_log st1 [InfoConcluido (size (resultados st1))]).
Proof.
  destruct (laco_nomes_retorna processar_nome nomes 1 (length nomes)
              (com_log st [InfoIniciandoNomes (length nomes)])) as [st1 E].
  exists st1. split; [done|].
  unfold processar_todos_nomes, processar_todos_nomes_com.
  unfold ligar at 1. rewrite logging_com_log. unfold ligar. by rewrite E.
Qed.

(** A run never touches the entry of a name that is not in its list. *)
Theorem processar_todos_nomes_fora_da_lista (nomes : list string) (k : string)
    (st : estado) :
  k ∉ nomes ->
  resultados (snd (processar_todos_nomes nomes st)) !! k = resultados st !! k.
Proof.
  intros Hk.
  destruct (processar_todos_nomes_eq nomes st) as (st1 & E1 & E).
  destruct (laco_nomes_quadro nomes 1 (length nomes)
              (com_log st [InfoIniciandoNomes (length nomes)]))
    as (st1' & E1' & Hfora & _ & _).
  rewrite E1 in E1'. injection E1' as <-.
  rewrite E. cbn [snd com_log resultados]. by rewrite Hfora.
Qed.

(** A run always returns.  It removes no entry from the store, adds entries
    under submitted names only, so at most one per submitted name, and its
    last log line reports the number of names the store then holds. *)
Theorem processar_todos_nomes_contagem (nomes : list string) (st : estado) :
  exists st' lg,
    processar_todos_nomes nomes st = (Retorna tt, st') /\
    log st' = log st ++ lg ++ [InfoConcluido (size (resultados st'))] /\
    size (resultados st') <= size (resultados st) + length nomes /\
    (forall k, is_Some (resultados st !! k) -> is_Some (resultados st' !! k)) /\
    (forall k, is_Some (resultados st' !! k) ->
       is_Some (resultados st !! k) \/ k ∈ nomes).
Proof.
  destruct (processar_todos_nomes_eq nomes st) as (st1 & E1 & E).
  destruct (laco_nomes_quadro nomes 1 (length nomes)
              (com_log st [InfoIniciandoNomes (length nomes)]))
    as (st1' & E1' & Hfora & Hmono & Htam).
  rewrite E1 in E1'. injection E1' as <-.
  destruct (laco_nomes_ordem nomes 1 (length nomes)
              (com_log st [InfoIniciandoNomes (length nomes)]))
    as (st1' & lg & E1' & Hlog & _).
  rewrite E1 in E1'. injection E1' as <-.
  exists (com_log st1 [InfoConcluido (size (resultados st1))]),
         (InfoIniciandoNomes (length nomes) :: lg).
  split; [done|]. cbn [log com_log resultados] in *.
  split; [rewrite Hlog; by rewrite <- !app_assoc|].
  split; [done|]. split; [done|].
  intros k Hk. destruct (decide (k ∈ nomes)) as [Hin|Hout]; [by right|left].
  by rewrite <- Hfora.
Qed.

(** ** Saving after a run *)



End Scraper.

Arguments resultados {Mundo} _.
Arguments log {Mundo} _.
Arguments pagina {Mundo} _.
Arguments geracao {Mundo} _.
Arguments com_log {Mundo} _ _.
Arguments fresca {Mundo} _ _.
Arguments iniciar {Mundo} _.
Arguments estado_em {Mundo} _ _ _.

(** ** Concrete runs *)

Import Exemplos.

(** C1 as the specification states it fails: when the portal cannot be
    reached the search for the name fails, and after the run the store has
    no entry for the name, rather than an entry holding the empty list. *)
Lemma falha_na_busca_sem_entrada :
  let fim := snd (processar_todos_nomes unit (navegar_fixo []) (submeter_fixo [])
                    ["ADILSON DA SILVA"] (iniciar tt)) in
  "ADILSON DA SILVA" ∈ ["ADILSON DA SILVA"] /\
  resultados fim !! "ADILSON DA SILVA" = None /\
  resultados fim !! "ADILSON DA SILVA" <> Some [].
Proof.
  split; [left|]. split; [vm_compute; reflexivity|vm_compute; discriminate].
Qed.

(** Two names, the second of which the portal does not answer. *)
Lemma entrada_apos_busca_witness :
  "Y" ∈ ["X"; "Y"] /\
  exists st' lg,
    processar_todos_nomes unit (navegar_fixo sitio_tres)
      (submeter_fixo [("X", pagina_tres)]) ["X"; "Y"] (iniciar tt) = (Retorna tt, st') /\
    log st' = log (iniciar tt) ++ lg /\
    (is_Some (resultados st' !! "Y") \/
     (ErroFalhaBusca "Y" ∈ lg /\
      resultados st' !! "Y" = resultados (iniciar tt) !! "Y")).
Proof.
  assert (H : "Y" ∈ ["X"; "Y"]) by (right; left).
  split; [exact H|].
  exact (proj1 (entrada_apos_busca unit (navegar_fixo sitio_tres)
                  (submeter_fixo [("X", pagina_tres)]) ["X"; "Y"] "Y" (iniciar tt) H)).
Defined.

(** C2 on three links whose second case page has no summary container: the
    method returns the record of the first link only.  The exception raised
    at the second link leaves the loop, the third link is never opened
    (the log has no line for it), although that link alone, in the table
    without the second row, gives its record. *)
Theorem extracao_para_no_link_que_falha :
  (exists st',
     extrair_dados_processos unit (navegar_fixo sitio_tres) "X"
       (estado_em tt pagina_tres ∅) = (Retorna [registro_um], st') /\
     log st' = [ InfoLinhasEncontradas 3; InfoEntrandoLink 1 3; InfoExtraindoDiv 1 1;
                 InfoEntrandoLink 2 3; ErroExtrairDados NoSuchElementException ]) /\
  (exists st',
     extrair_dados_processos unit (navegar_fixo sitio_tres) "X"
       (estado_em tt pagina_duas ∅) = (Retorna [registro_um; registro_tres], st')) /\
  [registro_um] <> [registro_um; registro_tres].
Proof.
  split; [|split].
  - eexists. split; vm_compute; reflexivity.
  - eexists. vm_compute; reflexivity.
  - discriminate.
Qed.

(** C3: the document carries the store as it is, and its [total_processos]
    is the number of names in the store.  On a store with one name and two
    cases it is therefore 1, where the sum of the lengths of the result sets
    is 2. *)
Theorem salvar_resultados_conta_nomes :
  (forall (Mundo : Type) (st : estado Mundo) (arquivo : option string)
          (carimbo agora : string),
     exists caminho dados lg,
       salvar_resultados Mundo arquivo carimbo agora st
         = (Retorna (caminho, dados), com_log st lg) /\
       processos dados = resultados st /\
       total_processos (metadata dados) = size (resultados st)) /\
  (let st := estado_em tt pagina_em_branco {[ "X" := [registro_um; registro_tres] ]} in
   exists caminho dados st',
     salvar_resultados unit None "20250101_000000" "2025-01-01T00:00:00" st
       = (Retorna (caminho, dados), st') /\
     processos dados = resultados st /\
     total_processos (metadata dados) = 1 /\
     soma_dos_tamanhos (processos dados) = 2 /\
     total_processos (metadata dados) <> soma_dos_tamanhos (processos dados)).
Proof.
  split.
  - intros Mundo st arquivo carimbo agora.
    eexists _, _, [_; _]. split.
    + unfold salvar_resultados, ligar. rewrite !logging_com_log, com_log_app.
      reflexivity.
    + split; reflexivity.
  - do 3 eexists. split; [reflexivity|]. simpl.
    split; [reflexivity|]. split; [vm_compute; reflexivity|].
    split; [vm_compute; reflexivity|vm_compute; discriminate].
Qed.

(** The theorems at concrete pages. *)

(** The table of the specification's example, with a header row. *)
Lemma localizar_links_por_igualdade_witness :
  let tabela :=
    MkWebElement 0
      (Elemento "table" "" "" None
         [ cabecalho; linha_com "ADILSON DA SILVA" "L1"; linha_com "OUTRO NOME" "L2" ]) in
  let st := estado_em tt pagina_adilson ∅ in
  fresca st tabela /\
  exists celulas lg,
    localizar_links unit "ADILSON DA SILVA" tabela st
      = (Retorna ([Some "L1"], celulas), com_log st lg).
Proof.
  intros tabela st.
  assert (H : fresca st tabela) by reflexivity.
  split; [exact H|].
  exact (proj1 (localizar_links_por_igualdade unit "ADILSON DA SILVA" tabela st H)).
Defined.

(** A search the portal answers with its "no results" page. *)
Lemma sem_resultados_lista_vazia_witness :
  let nav := navegar_fixo [(EPROC_URL, pagina_consulta)] in
  let sub := submeter_fixo [("FULANO DE TAL", pagina_sem_resultados)] in
  let st1 :=
    MkEstado unit tt 2 pagina_sem_resultados "" ∅
      [ InfoIniciandoProcessamento "FULANO DE TAL";
        InfoRealizandoBusca "FULANO DE TAL";
        InfoBuscaRealizada "FULANO DE TAL" ] in
  realizar_busca unit nav sub "FULANO DE TAL"
    (com_log (iniciar tt) [InfoIniciandoProcessamento "FULANO DE TAL"])
    = (Retorna true, st1) /\
  indicador_vazio (pagina st1) /\
  fst (processar_nome unit nav sub "FULANO DE TAL" (iniciar tt)) = Retorna [] /\
  resultados (snd (processar_nome unit nav sub "FULANO DE TAL" (iniciar tt)))
    !! "FULANO DE TAL" = Some [].
Proof.
  intros nav sub st1.
  assert (Hb : realizar_busca unit nav sub "FULANO DE TAL"
                 (com_log (iniciar tt) [InfoIniciandoProcessamento "FULANO DE TAL"])
               = (Retorna true, st1)) by (vm_compute; reflexivity).
  assert (Hv : indicador_vazio (pagina st1)) by (vm_compute; discriminate).
  split; [exact Hb|]. split; [exact Hv|].
  exact (proj2 (sem_resultados_lista_vazia unit nav sub "FULANO DE TAL"
                  (iniciar tt) st1 Hb Hv)).
Defined.

(** The two blocks of the specification's example. *)
Lemma extrair_capa_por_papel_witness :
  let st := estado_em tt capa_classe_assunto ∅ in
  let capa :=
    Elemento "fieldset" "fldAssuntos" "" None
      [ campo_rotulado "Classe" "Cível"; campo_rotulado "Assunto" "Contrato" ] in
  selecionar_documento (pagina st) (XPathId "fldAssuntos") = [capa] /\
  exists lg,
    extrair_capa unit st
      = (Retorna (<["Assunto" := "Contrato"]> (<["Classe" := "Cível"]> ∅)),
         com_log st lg).
Proof.
  intros st capa.
  assert (H : selecionar_documento (pagina st) (XPathId "fldAssuntos") = [capa])
    by reflexivity.
  split; [exact H|].
  exact (proj1 (extrair_capa_por_papel unit st capa [] H)).
Defined.

(** A label seen twice, each time followed by a value: the last value is
    the one committed. *)
Lemma bloco_compromete_um_par_witness :
  let st := estado_em tt (pagina_capa [bloco_repetido]) ∅ in
  let div := MkWebElement 0 bloco_repetido in
  fresca st div /\
  bloco unit 1 1 div ∅ st
    = (Retorna (<["Classe" := "Criminal"]> ∅), com_log st [InfoExtraindoDiv 1 1]).
Proof.
  intros st div.
  assert (H : fresca st div) by reflexivity.
  split; [exact H|].
  exact (proj1 (bloco_compromete_um_par unit 1 1 div ∅ st H)).
Defined.

(** A block without a label commits its value under the empty key. *)
Example bloco_sem_label_chave_vazia :
  let st := estado_em tt (pagina_capa [bloco_sem_label]) ∅ in
  bloco unit 1 1 (MkWebElement 0 bloco_sem_label) ∅ st
    = (Retorna (<["" := "solto"]> ∅), com_log st [InfoExtraindoDiv 1 1]).
Proof. reflexivity. Qed.

(** Two recordings under "X" in a store that already holds "Y". *)
Lemma registrar_sobrescreve_witness :
  let st := estado_em tt pagina_em_branco {[ "Y" := [registro_tres] ]} in
  let st2 := snd (registrar unit "X" [registro_tres]
                    (snd (registrar unit "X" [registro_um; registro_um] st))) in
  "Y" <> "X" /\
  resultados st2 !! "X" = Some [registro_tres] /\
  resultados st2 !! "Y" = Some [registro_tres].
Proof.
  intros st st2.
  assert (H : "Y" <> "X") by discriminate.
  split; [exact H|].
  destruct (registrar_sobrescreve unit st "X" "Y" [registro_um; registro_um]
              [registro_tres] H) as (_ & _ & _ & HX & _ & HY).
  split; [exact HX|]. etransitivity; [exact HY|]. reflexivity.
Defined.

(** ** More concrete pages *)

(** A results area that holds neither the label nor a table. *)
Lemma extrair_sem_tabela_lista_vazia_witness :
  let st := estado_em tt pagina_sem_tabela ∅ in
  filhos_de_id "divInfraAreaTabela" "label" (pagina st) = [] /\
  filhos_de_id "divInfraAreaTabela" "table" (pagina st) = [] /\
  extrair_dados_processos unit (navegar_fixo []) "X" st
    = (Retorna [], com_log st [WarnTabelaNomes "X"]).
Proof.
  intros st.
  assert (H1 : filhos_de_id "divInfraAreaTabela" "label" (pagina st) = [])
    by reflexivity.
  assert (H2 : filhos_de_id "divInfraAreaTabela" "table" (pagina st) = [])
    by reflexivity.
  split; [exact H1|]. split; [exact H2|].
  exact (extrair_sem_tabela_lista_vazia unit (navegar_fixo []) "X" st H1 H2).
Defined.

(** Three matching rows, the second of which leads to a case without a
    summary container: fewer records than rows, and the error line. *)
Lemma extrair_total_ou_erro_witness :
  let st := estado_em tt pagina_tres ∅ in
  let t := Elemento "table" "" "" None
             [ linha_com "X" "L1"; linha_com "X" "L2"; linha_com "X" "L3" ] in
  filhos_de_id "divInfraAreaTabela" "label" (pagina st) = [] /\
  filhos_de_id "divInfraAreaTabela" "table" (pagina st) = [t] /\
  exists ps st' lg fim,
    extrair_dados_processos unit (navegar_fixo sitio_tres) "X" st = (Retorna ps, st') /\
    log st' = log st ++ lg ++ [fim] /\
    length ps <= 3 /\
    ((fim = InfoTotalExtraidos (length ps) "X" /\ length ps = 3) \/
     (exists e, fim = ErroExtrairDados e /\ length ps < 3)).
Proof.
  intros st t.
  assert (H1 : filhos_de_id "divInfraAreaTabela" "label" (pagina st) = [])
    by reflexivity.
  assert (H2 : filhos_de_id "divInfraAreaTabela" "table" (pagina st) = [t])
    by reflexivity.
  split; [exact H1|]. split; [exact H2|].
  exact (extrair_total_ou_erro unit (navegar_fixo sitio_tres) "X" st t [] H1 H2).
Defined.

(** The table of the specification's example, searched for a name that no
    row carries. *)
Lemma extrair_sem_linha_igual_witness :
  let st := estado_em tt pagina_adilson ∅ in
  let t := Elemento "table" "" "" None
             [ cabecalho; linha_com "ADILSON DA SILVA" "L1"; linha_com "OUTRO NOME" "L2" ] in
  filhos_de_id "divInfraAreaTabela" "label" (pagina st) = [] /\
  filhos_de_id "divInfraAreaTabela" "table" (pagina st) = [t] /\
  links_por_igualdade "NINGUEM" (linhas_da_tabela t) = [] /\
  exists lg,
    extrair_dados_processos unit (navegar_fixo []) "NINGUEM" st
      = (Retorna [], com_log st (lg ++ [InfoTotalExtraidos 0 "NINGUEM"])).
Proof.
  intros st t.
  assert (H1 : filhos_de_id "divInfraAreaTabela" "label" (pagina st) = [])
    by reflexivity.
  assert (H2 : filhos_de_id "divInfraAreaTabela" "table" (pagina st) = [t])
    by reflexivity.
  assert (H3 : links_por_igualdade "NINGUEM" (linhas_da_tabela t) = [])
    by reflexivity.
  split; [exact H1|]. split; [exact H2|]. split; [exact H3|].
  exact (extrair_sem_linha_igual unit (navegar_fixo []) "NINGUEM" st t [] H1 H2 H3).
Defined.

(** A link whose page has no table, reached from a results page. *)
Lemma extrair_link_sem_tabela_witness :
  let st := estado_em tt pagina_tres ∅ in
  let tabela :=
    MkWebElement 0
      (Elemento "table" "" "" None
         [ linha_com "X" "L1"; linha_com "X" "L2"; linha_com "X" "L3" ]) in
  we_geracao tabela <= geracao st /\
  navegar_fixo sitio_duas_linhas "V" tt = (Some pagina_sem_capa, tt) /\
  filhos_de_id "divInfraAreaTabela" "table" pagina_sem_capa = [] /\
  extrair_link unit (navegar_fixo sitio_duas_linhas) "X" 1 1 (Some "V") tabela None st
    = (Levanta StaleElementReferenceException,
       MkEstado unit tt 1 pagina_sem_capa "" ∅
                [InfoEntrandoLink 1 1; WarnTabelaProcessos "X"]).
Proof.
  intros st tabela.
  assert (H1 : we_geracao tabela <= geracao st) by (simpl; lia).
  assert (H2 : navegar_fixo sitio_duas_linhas "V" tt = (Some pagina_sem_capa, tt))
    by reflexivity.
  assert (H3 : filhos_de_id "divInfraAreaTabela" "table" pagina_sem_capa = [])
    by reflexivity.
  split; [exact H1|]. split; [exact H2|]. split; [exact H3|].
  exact (extrair_link_sem_tabela unit (navegar_fixo sitio_duas_linhas) "X" 1 1 "V"
           tabela None st pagina_sem_capa tt H1 H2 H3).
Defined.

(** A link page with a header row and two cases: the second case, the one
    of the last row, is the one opened. *)
Lemma extrair_link_ultima_linha_witness :
  let st := estado_em tt pagina_tres ∅ in
  let tabela :=
    MkWebElement 0
      (Elemento "table" "" "" None
         [ linha_com "X" "L1"; linha_com "X" "L2"; linha_com "X" "L3" ]) in
  let p := pagina_tabela [ cabecalho; linha_com "0001" "D1"; linha_com "0003" "D3" ] in
  let t := Elemento "table" "" "" None
             [ cabecalho; linha_com "0001" "D1"; linha_com "0003" "D3" ] in
  let a := Elemento "a" "" "0003" (Some "D3") [] in
  let c := Elemento "td" "" "0003" None [ a ] in
  let d := pagina_capa [ campo_rotulado "Classe" "Tres" ] in
  let capa := Elemento "fieldset" "fldAssuntos" "" None [ campo_rotulado "Classe" "Tres" ] in
  navegar_fixo sitio_duas_linhas "L" tt = (Some p, tt) /\
  filhos_de_id "divInfraAreaTabela" "table" p = [t] /\
  ultima_celula (linhas_da_tabela t) = Some c /\
  primeira "a" c = Some a /\
  href a = Some "D3" /\
  navegar_fixo sitio_duas_linhas "D3" tt = (Some d, tt) /\
  selecionar_documento d (XPathId "fldAssuntos") = [capa] /\
  exists lg,
    extrair_link unit (navegar_fixo sitio_duas_linhas) "X" 1 1 (Some "L") tabela None st
      = (Retorna (registro_tres, MkWebElement 1 t, Some (MkWebElement 1 c)),
         MkEstado unit tt 2 d "" ∅ (log st ++ lg)).
Proof.
  intros st tabela p t a c d capa.
  assert (H1 : navegar_fixo sitio_duas_linhas "L" tt = (Some p, tt)) by reflexivity.
  assert (H2 : filhos_de_id "divInfraAreaTabela" "table" p = [t]) by reflexivity.
  assert (H3 : ultima_celula (linhas_da_tabela t) = Some c) by reflexivity.
  assert (H4 : primeira "a" c = Some a) by reflexivity.
  assert (H5 : href a = Some "D3") by reflexivity.
  assert (H6 : navegar_fixo sitio_duas_linhas "D3" tt = (Some d, tt)) by reflexivity.
  assert (H7 : selecionar_documento d (XPathId "fldAssuntos") = [capa]) by reflexivity.
  repeat (split; [assumption|]).
  exact (extrair_link_ultima_linha unit (navegar_fixo sitio_duas_linhas) "X" 1 1 "L"
           tabela None st p tt t [] c a "D3" d tt capa [] H1 H2 H3 H4 H5 H6 H7).
Defined.

(** The table of the specification's example: one header row, no warning. *)
Lemma localizar_links_completo_witness :
  let tabela :=
    MkWebElement 0
      (Elemento "table" "" "" None
         [ cabecalho; linha_com "ADILSON DA SILVA" "L1"; linha_com "OUTRO NOME" "L2" ]) in
  let st := estado_em tt pagina_adilson ∅ in
  fresca st tabela /\
  localizar_links unit "ADILSON DA SILVA" tabela st
    = (Retorna ([Some "L1"],
                Some (MkWebElement 0
                        (Elemento "td" "" "OUTRO NOME" None
                           [ Elemento "a" "" "OUTRO NOME" (Some "L2") [] ]))),
       com_log st [InfoLinhasEncontradas 3; InfoPulandoCabecario]).
Proof.
  intros tabela st.
  assert (H : fresca st tabela) by reflexivity.
  split; [exact H|].
  exact (localizar_links_completo unit "ADILSON DA SILVA" tabela st H).
Defined.

(** A name processed while the store holds another one. *)
Lemma processar_nome_so_o_nome_witness :
  let st := estado_em tt pagina_em_branco {[ "Y" := [registro_tres] ]} in
  let r := processar_nome unit (navegar_fixo sitio_tres)
             (submeter_fixo [("X", pagina_tres)]) "X" st in
  "Y" <> "X" /\
  (exists ps, fst r = Retorna ps) /\
  resultados (snd r) !! "Y" = Some [registro_tres].
Proof.
  intros st r.
  assert (H : "Y" <> "X") by discriminate.
  split; [exact H|].
  destruct (processar_nome_so_o_nome unit (navegar_fixo sitio_tres)
              (submeter_fixo [("X", pagina_tres)]) "X" "Y" st H) as [H1 H2].
  split; [exact H1|]. etransitivity; [exact H2|]. reflexivity.
Defined.

(** A run over two names while the store holds a third one. *)
Lemma processar_todos_nomes_fora_da_lista_witness :
  let st := estado_em tt pagina_em_branco {[ "Z" := [registro_um] ]} in
  ("Z" ∉ ["X"; "Y"]) /\
  resultados (snd (processar_todos_nomes unit (navegar_fixo sitio_tres)
                     (submeter_fixo [("X", pagina_tres)]) ["X"; "Y"] st)) !! "Z"
    = Some [registro_um].
Proof.
  intros st.
  assert (H : "Z" ∉ ["X"; "Y"]).
  { rewrite !not_elem_of_cons. split; [discriminate|]. split; [discriminate|].
    apply not_elem_of_nil. }
  split; [exact H|].
  etransitivity;
    [exact (processar_todos_nomes_fora_da_lista unit (navegar_fixo sitio_tres)
              (submeter_fixo [("X", pagina_tres)]) ["X"; "Y"] "Z" st H)|].
  reflexivity.
Defined.

(** Three matching rows: the first link gives its record, the second one
    fails, the third one is not reached. *)
Lemma extrair_ate_a_primeira_falha_witness :
  let st := estado_em tt pagina_tres ∅ in
  let t := Elemento "table" "" "" None
             [ linha_com "X" "L1"; linha_com "X" "L2"; linha_com "X" "L3" ] in
  filhos_de_id "divInfraAreaTabela" "label" (pagina st) = [] /\
  filhos_de_id "divInfraAreaTabela" "table" (pagina st) = [t] /\
  exists st',
    extrair_dados_processos unit (navegar_fixo sitio_tres) "X" st
      = (Retorna [registro_um], st').
Proof.
  intros st t.
  assert (H1 : filhos_de_id "divInfraAreaTabela" "label" (pagina st) = [])
    by reflexivity.
  assert (H2 : filhos_de_id "divInfraAreaTabela" "table" (pagina st) = [t])
    by reflexivity.
  split; [exact H1|]. split; [exact H2|].
  exact (extrair_ate_a_primeira_falha unit (navegar_fixo sitio_tres) "X" st t [] H1 H2).
Defined.

(** A run can be given names that are not the configured ones: the saved
    document then holds an entry for a name its own list of queried names
    does not have. *)
Example documento_lista_outros_nomes :
  let st1 := snd (processar_todos_nomes unit (navegar_fixo sitio_tres)
                    (submeter_fixo [("X", pagina_tres)]) ["X"] (iniciar tt)) in
  exists caminho dados st2,
    salvar_resultados unit None "20250101_000000" "2025-01-01T00:00:00" st1
      = (Retorna (caminho, dados), st2) /\
    processos dados !! "X" = Some [registro_um] /\
    "X" ∉ nomes_consultados (metadata dados).
Proof.
  do 3 eexists. split; [reflexivity|]. split; [vm_compute; reflexivity|].
  cbn. unfold NOMES_CONSULTA. rewrite !not_elem_of_cons.
  repeat (split; [discriminate|]). apply not_elem_of_nil.
Qed.
